(** * Session and authentication contract of the RDP dashboard front-end

    A shallow embedding of the client-side session code:

    - [src/frontend/src/utils/api.js]: the axios instance [api], its request
      and response interceptors and the [authAPI] wrappers;
    - the [AuthProvider] context ([contexts/AuthContext.js]): the start-up
      effect, [verifyToken], [login], [logout], [updateUser],
      [changePassword], [setup2FA], [enable2FA];
    - [mockAuth.login] of [utils/mockData.js];
    - the polling effects of the [Dashboard], [SessionMonitor] and
      [LogsViewer] components.

    JavaScript runs these handlers on one thread and each of them to
    completion, so an asynchronous function is embedded as a function from
    the browser state to a completion (a value or a thrown error) and a new
    browser state.  The backend is not part of the repository: it is a
    section variable, a function from the requests already sent and the
    current request to what the network delivers. *)

From stdpp Require Import gmap strings list fin_maps pretty.

Set Warnings "-register-all".
Open Scope string_scope.
Open Scope list_scope.
Open Scope nat_scope.

(** ** JavaScript values *)

(** The values that flow through the modelled code: JSON scalars and objects
    (numbers on these paths are integers: ids, time stamps, status codes). *)
Inductive JsVal :=
| JUndefined
| JNull
| JBool (b : bool)
| JNum (n : Z)
| JStr (s : string)
| JObj (fields : gmap string JsVal).

(** [ToBoolean]: the test of [if (v)], [!v], [a && b], [a || b]. *)
Definition truthy (v : JsVal) : bool :=
  match v with
  | JUndefined | JNull => false
  | JBool b => b
  | JNum n => negb (n =? 0)%Z
  | JStr s => negb (String.eqb s "")
  | JObj _ => true
  end.

(** [v === s] for a string [s]. *)
Definition strict_eq_str (v : JsVal) (s : string) : bool :=
  match v with
  | JStr t => String.eqb t s
  | _ => false
  end.

(** [a || b]. *)
Definition js_or (a b : JsVal) : JsVal := if truthy a then a else b.

(** [o.k] on an object: a missing property reads as [undefined]. *)
Definition prop (o : gmap string JsVal) (k : string) : JsVal :=
  default JUndefined (o !! k).

(** [v?.k]: [undefined] on [null] and [undefined], and on a primitive
    (none of the property names read here is a method of a primitive). *)
Definition opt_member (v : JsVal) (k : string) : JsVal :=
  match v with
  | JObj o => prop o k
  | _ => JUndefined
  end.

(** [String(v)], the conversion [localStorage.setItem] applies to its value. *)
Definition to_string (v : JsVal) : string :=
  match v with
  | JUndefined => "undefined"
  | JNull => "null"
  | JBool true => "true"
  | JBool false => "false"
  | JNum n => pretty n
  | JStr s => s
  | JObj _ => "[object Object]"
  end.

(** ** HTTP *)

Inductive Method := GET | POST | PUT | DELETE.

(** An axios request config. *)
Record Config := mkConfig {
  method : Method;
  url : string;
  headers : gmap string string;
  params : JsVal;
  payload : JsVal
}.

(** An axios response: [status], [headers] (lower-case names) and [data]. *)
Record Response := mkResponse {
  status : Z;
  resp_headers : gmap string string;
  data : JsVal
}.

(** What the network delivers for a request. *)
Inductive NetReply :=
| Reply (r : Response)
| NoReply.                      (* network failure, unreachable backend, timeout *)

(** Thrown values.  [error.response] is the response of an axios error
    raised for a status outside 2xx, and [undefined] otherwise. *)
Inductive Err :=
| AxiosError (response : option Response)
| TypeError.

Definition response (error : Err) : option Response :=
  match error with
  | AxiosError r => r
  | TypeError => None
  end.

(** ** Browser and provider state *)

(** Observable effects, in the order they happen. *)
Inductive Event :=
| EvSetItem (key value : string)
| EvRemoveItem (key : string)
| EvNavigate (href : string)
| EvToast (kind message : string)
| EvConsoleError (message : string).

Record World := mkWorld {
  localStorage : gmap string string;   (* window.localStorage *)
  location_href : string;              (* last value assigned to window.location.href *)
  wire : list Config;                  (* requests handed to the network, oldest first *)
  trace : list Event;
  isAuthenticated : bool;              (* the three useState cells of AuthProvider *)
  user : JsVal;
  loading : bool
}.

Definition with_localStorage (f : gmap string string → gmap string string) (w : World) : World :=
  mkWorld (f (localStorage w)) (location_href w) (wire w) (trace w)
          (isAuthenticated w) (user w) (loading w).

Definition with_location_href (h : string) (w : World) : World :=
  mkWorld (localStorage w) h (wire w) (trace w)
          (isAuthenticated w) (user w) (loading w).

Definition with_wire (c : Config) (w : World) : World :=
  mkWorld (localStorage w) (location_href w) (wire w ++ [c]) (trace w)
          (isAuthenticated w) (user w) (loading w).

Definition emit (e : Event) (w : World) : World :=
  mkWorld (localStorage w) (location_href w) (wire w) (trace w ++ [e])
          (isAuthenticated w) (user w) (loading w).

Definition with_isAuthenticated (b : bool) (w : World) : World :=
  mkWorld (localStorage w) (location_href w) (wire w) (trace w)
          b (user w) (loading w).

Definition with_user (v : JsVal) (w : World) : World :=
  mkWorld (localStorage w) (location_href w) (wire w) (trace w)
          (isAuthenticated w) v (loading w).

Definition with_loading (b : bool) (w : World) : World :=
  mkWorld (localStorage w) (location_href w) (wire w) (trace w)
          (isAuthenticated w) (user w) b.

(** ** Completions and the monad of handlers *)

Inductive Completion (A : Type) :=
| Return (a : A)
| Throw (e : Err).
Arguments Return {A} a.
Arguments Throw {A} e.

Definition M (A : Type) : Type := World → Completion A * World.

Definition ret {A} (a : A) : M A := fun w => (Return a, w).

Definition throw {A} (e : Err) : M A := fun w => (Throw e, w).

Definition bind {A B} (c : M A) (k : A → M B) : M B :=
  fun w =>
    match c w with
    | (Return a, w') => k a w'
    | (Throw e, w') => (Throw e, w')
    end.

Notation "'let*' x := c 'in' k" := (bind c (fun x => k))
  (at level 10, x name, c at level 100, k at level 200).
Notation "c ;; k" := (bind c (fun _ => k))
  (at level 100, k at level 200, right associativity).

(** A statement that cannot throw. *)
Definition act (f : World → World) : M unit := fun w => (Return tt, f w).

(** [try { body } catch (error) { handler }]. *)
Definition try_catch {A} (body : M A) (handler : Err → M A) : M A :=
  fun w =>
    match body w with
    | (Return a, w') => (Return a, w')
    | (Throw e, w') => handler e w'
    end.

(** [try { body } finally { fin }], for a [fin] that completes normally: the
    completion of [body] (a [return] included) is kept. *)
Definition try_finally {A} (body : M A) (fin : World → World) : M A :=
  fun w => let '(c, w') := body w in (c, fin w').

(** ** window.localStorage, window.location, toast, console *)

Definition getItem (key : string) (w : World) : option string :=
  localStorage w !! key.

Definition removeItem (key : string) (w : World) : World :=
  emit (EvRemoveItem key) (with_localStorage (delete key) w).

Definition setItem (key value : string) (w : World) : World :=
  emit (EvSetItem key value) (with_localStorage (insert key value) w).

Definition assign_location_href (h : string) (w : World) : World :=
  emit (EvNavigate h) (with_location_href h w).

Definition toast_success (message : string) : World → World :=
  emit (EvToast "success" message).

Definition toast_error (message : string) : World → World :=
  emit (EvToast "error" message).

Definition console_error (message : string) : World → World :=
  emit (EvConsoleError message).

(** ** The API Gateway Client ([utils/api.js]) *)

Definition AUTH_TOKEN : string := "authToken".
Definition USER_DATA : string := "userData".

(** The default headers of [axios.create]; the headers of a call override
    them. *)
Definition api_default_headers : gmap string string :=
  {[ "Content-Type" := "application/json" ]}.

Definition set_header (name value : string) (config : Config) : Config :=
  mkConfig (method config) (url config) (<[name := value]> (headers config))
           (params config) (payload config).

(** [api.interceptors.request.use((config) => ...)]. *)
Definition request_interceptor (config : Config) (w : World) : Config :=
  match getItem AUTH_TOKEN w with
  | Some token =>
      if truthy (JStr token)
      then set_header "Authorization" ("Bearer " +:+ token) config
      else config
  | None => config
  end.

(** [error.response?.status === code]. *)
Definition status_is (error : Err) (code : Z) : bool :=
  match response error with
  | Some r => (status r =? code)%Z
  | None => false
  end.

(** [api.interceptors.response.use((response) => response, (error) => ...)]. *)
Definition response_fulfilled (r : Response) : M Response := ret r.

Definition response_rejected (error : Err) : M Response :=
  (if status_is error 401
   then act (removeItem AUTH_TOKEN) ;;
        act (removeItem USER_DATA) ;;
        act (assign_location_href "/login")
   else ret tt) ;;
  throw error.

(** axios settles a reply with [validateStatus]: 2xx resolves, any other
    status rejects with the response attached, no reply rejects without. *)
Definition settle (reply : NetReply) : Completion Response :=
  match reply with
  | Reply r =>
      if (200 <=? status r)%Z && (status r <? 300)%Z
      then Return r
      else Throw (AxiosError (Some r))
  | NoReply => Throw (AxiosError None)
  end.

(** The first half of a call: defaults merged, request interceptor run, the
    request handed to the network. *)
Definition dispatch (config : Config) (w : World) : Config * World :=
  let merged :=
    mkConfig (method config) (url config) (headers config ∪ api_default_headers)
             (params config) (payload config) in
  let sent := request_interceptor merged w in
  (sent, with_wire sent w).

(** The second half, when the reply is in: settle, then the response
    interceptor. *)
Definition receive (reply : NetReply) : M Response :=
  match settle reply with
  | Return r => response_fulfilled r
  | Throw e => response_rejected e
  end.

Section Client.

(** The backend: what the network delivers for a request, given the requests
    sent before it. *)
Variable backend : list Config → Config → NetReply.

(** [JSON.stringify]. *)
Variable JSON_stringify : JsVal → string.

(** [await api.request(config)]. *)
Definition api_request (config : Config) : M Response :=
  fun w =>
    let '(sent, w') := dispatch config w in
    receive (backend (wire w) sent) w'.

Definition api_get (path : string) (query : JsVal) : M Response :=
  api_request (mkConfig GET path ∅ query JUndefined).

Definition api_post (path : string) (body query : JsVal) : M Response :=
  api_request (mkConfig POST path ∅ query body).

(** *** [authAPI] *)

Definition authAPI_login (username password : string) (totpCode : JsVal) : M JsVal :=
  let* response := api_post "/auth/login"
      (JObj {[ "username" := JStr username;
               "password" := JStr password;
               "totp_code" := totpCode ]}) JUndefined in
  ret (data response).

Definition authAPI_getCurrentUser : M JsVal :=
  let* response := api_get "/auth/me" JUndefined in
  ret (data response).

Definition authAPI_setup2FA : M JsVal :=
  let* response := api_post "/auth/setup-2fa" JUndefined JUndefined in
  ret (data response).

Definition authAPI_enable2FA (totpCode : JsVal) : M JsVal :=
  let* response := api_post "/auth/enable-2fa" JNull
      (JObj {[ "totp_code" := totpCode ]}) in
  ret (data response).

Definition authAPI_changePassword (currentPassword newPassword : JsVal) : M JsVal :=
  let* response := api_post "/auth/change-password" JNull
      (JObj {[ "current_password" := currentPassword;
               "new_password" := newPassword ]}) in
  ret (data response).

(** ** The auth context ([AuthProvider]) *)

(** [v.k], which throws on [null] and [undefined]. *)
Definition member (v : JsVal) (k : string) : M JsVal :=
  match v with
  | JUndefined | JNull => throw TypeError
  | _ => ret (opt_member v k)
  end.

Definition setIsAuthenticated (b : bool) : M unit := act (with_isAuthenticated b).
Definition setUser (v : JsVal) : M unit := act (with_user v).
Definition setLoading (b : bool) : M unit := act (with_loading b).

Definition verifyToken : M unit :=
  try_finally
    (try_catch
       (let* userData := authAPI_getCurrentUser in
        setUser userData ;;
        setIsAuthenticated true)
       (fun error =>
          (* Token is invalid *)
          act (removeItem AUTH_TOKEN) ;;
          act (removeItem USER_DATA) ;;
          setIsAuthenticated false ;;
          setUser JNull))
    (with_loading false).

(** The effect run once when the provider mounts. *)
Definition on_app_start : M unit :=
  fun w =>
    match getItem AUTH_TOKEN w with
    | Some token =>
        if truthy (JStr token) then verifyToken w else setLoading false w
    | None => setLoading false w
    end.

(** [error.response?.data?.detail]. *)
Definition error_detail (error : Err) : JsVal :=
  match response error with
  | Some r => opt_member (data r) "detail"
  | None => JUndefined
  end.

(** [error.response?.headers?.['x-require-totp']], as a truth value. *)
Definition require_totp_header (error : Err) : bool :=
  match response error with
  | Some r =>
      match resp_headers r !! "x-require-totp" with
      | Some v => truthy (JStr v)
      | None => false
      end
  | None => false
  end.

(** The [catch] of [login]: the result it returns for a thrown [error]. *)
Definition login_rejected (error : Err) : JsVal :=
  if status_is error 400 && require_totp_header error
  then JObj {[ "success" := JBool false;
               "error" := JStr "Please enter your 2FA code";
               "requiresTOTP" := JBool true ]}
  else if truthy (error_detail error)
  then JObj {[ "success" := JBool false;
               "error" := error_detail error;
               "requiresTOTP" := JBool false ]}
  else JObj {[ "success" := JBool false;
               "error" := JStr "Authentication failed";
               "requiresTOTP" := JBool false ]}.

Definition login (username password : string) (totpCode : JsVal) : M JsVal :=
  try_finally
    (try_catch
       (setLoading true ;;
        let* response := authAPI_login username password totpCode in
        let* response_user := member response "user" in
        let session_user :=
          js_or response_user (JObj {[ "username" := JStr username ]}) in
        setUser session_user ;;
        setIsAuthenticated true ;;
        let* access_token := member response "access_token" in
        act (setItem AUTH_TOKEN (to_string access_token)) ;;
        act (setItem USER_DATA (JSON_stringify session_user)) ;;
        ret (JObj {[ "success" := JBool true ]}))
       (fun error => ret (login_rejected error)))
    (with_loading false).

Definition logout : M unit :=
  setIsAuthenticated false ;;
  setUser JNull ;;
  act (removeItem AUTH_TOKEN) ;;
  act (removeItem USER_DATA) ;;
  act (toast_success "Logged out successfully").

Definition updateUser : M unit :=
  try_catch
    (let* userData := authAPI_getCurrentUser in
     setUser userData ;;
     act (setItem USER_DATA (JSON_stringify userData)))
    (fun error => act (console_error "Error updating user data:")).

(** The [catch] shared by [changePassword], [setup2FA] and [enable2FA]. *)
Definition report_failure (fallback : string) (error : Err) : M JsVal :=
  let errorMessage := js_or (error_detail error) (JStr fallback) in
  act (toast_error (to_string errorMessage)) ;;
  ret (JObj {[ "success" := JBool false; "error" := errorMessage ]}).

Definition changePassword (currentPassword newPassword : JsVal) : M JsVal :=
  try_catch
    (authAPI_changePassword currentPassword newPassword ;;
     act (toast_success "Password changed successfully") ;;
     ret (JObj {[ "success" := JBool true ]}))
    (report_failure "Failed to change password").

Definition setup2FA : M JsVal :=
  try_catch
    (let* response := authAPI_setup2FA in
     ret (JObj {[ "success" := JBool true; "data" := response ]}))
    (report_failure "Failed to setup 2FA").

Definition enable2FA (totpCode : JsVal) : M JsVal :=
  try_catch
    (authAPI_enable2FA totpCode ;;
     updateUser ;;
     act (toast_success "Two-factor authentication enabled") ;;
     ret (JObj {[ "success" := JBool true ]}))
    (report_failure "Failed to enable 2FA").

End Client.

(** ** The mock authentication fixture ([utils/mockData.js]) *)

(** [mockAuth.users]; [lastLogin] is the time the module was loaded. *)
Definition mockAuth_users (lastLogin : string) : list (gmap string JsVal) :=
  [ {[ "id" := JNum 1;
       "username" := JStr "admin";
       "password" := JStr "admin123";
       "role" := JStr "administrator";
       "email" := JStr "admin@rdpstealth.com";
       "lastLogin" := JStr lastLogin;
       "totpEnabled" := JBool true ]} ].

Definition invalid_credentials : JsVal :=
  JObj {[ "success" := JBool false; "error" := JStr "Invalid credentials" ]}.

Definition second_factor_required : JsVal :=
  JObj {[ "success" := JBool false; "requiresTOTP" := JBool true ]}.

Definition invalid_totp_code : JsVal :=
  JObj {[ "success" := JBool false; "error" := JStr "Invalid TOTP code" ]}.

(** [mockAuth.users.find(u => u.username === username)]. *)
Definition find_user (users : list (gmap string JsVal)) (username : string)
    : option (gmap string JsVal) :=
  find (fun u => strict_eq_str (prop u "username") username) users.

(** [mockAuth.login], over the user table [users] it finds in [mockAuth.users]
    and the reading [now] of [Date.now()].  The awaited one-second timer only
    postpones the body; nothing of the browser state is read or written. *)
Definition mockAuth_login (users : list (gmap string JsVal)) (now : Z)
    (username password : string) (totpCode : JsVal) : M JsVal :=
  match find_user users username with
  | None => ret invalid_credentials
  | Some user =>
      if negb (strict_eq_str (prop user "password") password)
      then ret invalid_credentials
      else if truthy (prop user "totpEnabled") && negb (truthy totpCode)
      then ret second_factor_required
      else if truthy (prop user "totpEnabled") && negb (strict_eq_str totpCode "123456")
      then ret invalid_totp_code
      else
        let token := "mock_jwt_token_" +:+ pretty now in
        ret (JObj {[ "success" := JBool true;
                     "user" := JObj (<["password" := JUndefined]> user);
                     "token" := JStr token ]})
  end.

(** ** Polling views *)

(** The callbacks the components hand to [setInterval]. *)
Inductive Callback :=
| LoadDashboardData             (* Dashboard: reload stats, metrics, sessions *)
| JitterBandwidth               (* SessionMonitor: perturb the bandwidth figures *)
| AppendLog.                    (* LogsViewer: prepend a generated log line *)

Record Interval := mkInterval {
  callback : Callback;
  delay : Z
}.

(** The timer table of the window: handles are handed out in increasing
    order; [started] lists the handles returned so far, newest first. *)
Record Timers := mkTimers {
  next_handle : nat;
  active : gmap nat Interval;
  started : list nat
}.

Definition setInterval (cb : Callback) (ms : Z) (t : Timers) : nat * Timers :=
  (next_handle t,
   mkTimers (S (next_handle t))
            (<[next_handle t := mkInterval cb ms]> (active t))
            (next_handle t :: started t)).

Definition clearInterval (handle : nat) (t : Timers) : Timers :=
  mkTimers (next_handle t) (delete handle (active t)) (started t).

(** What an effect returns: nothing, or its cleanup function. *)
Definition Cleanup : Type := Timers → Timers.

(** [Dashboard]: [useEffect(() => { loadDashboardData(); ... }, [])]. *)
Definition Dashboard_effect (t : Timers) : option Cleanup * Timers :=
  let '(interval, t') := setInterval LoadDashboardData 30000 t in
  (Some (clearInterval interval), t').

(** [SessionMonitor]: [useEffect(() => { ... }, [])]. *)
Definition SessionMonitor_effect (t : Timers) : option Cleanup * Timers :=
  let '(interval, t') := setInterval JitterBandwidth 2000 t in
  (Some (clearInterval interval), t').

(** [LogsViewer]: [useEffect(() => { ... }, [isAutoRefresh])]. *)
Definition LogsViewer_effect (isAutoRefresh : bool) (t : Timers) : option Cleanup * Timers :=
  if negb isAutoRefresh then (None, t)
  else
    let '(interval, t') := setInterval AppendLog 5000 t in
    (Some (clearInterval interval), t').

Inductive View := Dashboard | SessionMonitor | LogsViewer.

(** A view on screen: its [isAutoRefresh] cell (read by [LogsViewer] only)
    and the cleanup its polling effect returned last. *)
Record Mounted := mkMounted {
  view : View;
  isAutoRefresh : bool;
  cleanup : option Cleanup
}.

Definition polling_effect (v : View) (autoRefresh : bool) : Timers → option Cleanup * Timers :=
  match v with
  | Dashboard => Dashboard_effect
  | SessionMonitor => SessionMonitor_effect
  | LogsViewer => LogsViewer_effect autoRefresh
  end.

Definition run_cleanup (c : option Cleanup) (t : Timers) : Timers :=
  match c with
  | Some f => f t
  | None => t
  end.

(** React's effect lifecycle.  Showing a view mounts it: the state cells take
    their initial values ([isAutoRefresh] starts [true]) and the effect runs. *)
Definition show (v : View) (t : Timers) : Mounted * Timers :=
  let '(c, t') := polling_effect v true t in
  (mkMounted v true c, t').

(** Hiding a view unmounts it: the cleanup of the last run of the effect is
    called. *)
Definition hide (m : Mounted) (t : Timers) : Timers :=
  run_cleanup (cleanup m) t.

(** What happens to a view while it is on screen. *)
Inductive ViewEvent :=
| Rerender                      (* a state change outside the effect's dependencies *)
| ToggleAutoRefresh.            (* LogsViewer: setIsAutoRefresh(!isAutoRefresh) *)

(** A dependency of the effect changed: cleanup, then the effect again.  The
    effects of [Dashboard] and [SessionMonitor] have no dependencies. *)
Definition view_event (e : ViewEvent) (m : Mounted) (t : Timers) : Mounted * Timers :=
  match e, view m with
  | ToggleAutoRefresh, LogsViewer =>
      let autoRefresh := negb (isAutoRefresh m) in
      let '(c, t') := polling_effect LogsViewer autoRefresh (run_cleanup (cleanup m) t) in
      (mkMounted LogsViewer autoRefresh c, t')
  | _, _ => (m, t)
  end.

Fixpoint view_events (es : list ViewEvent) (m : Mounted) (t : Timers) : Mounted * Timers :=
  match es with
  | [] => (m, t)
  | e :: es' => let '(m', t') := view_event e m t in view_events es' m' t'
  end.

(** A view shown, used for a while, and hidden again. *)
Definition visit (v : View) (es : list ViewEvent) (t : Timers) : Timers :=
  let '(m, t1) := show v t in
  let '(m', t2) := view_events es m t1 in
  hide m' t2.

(** ** Calls in flight at the same time *)

(** [Dashboard.loadDashboardData] awaits three calls under [Promise.all]:
    all three requests are dispatched before the first reply is handled. *)
Definition dashboardAPI_configs : list Config :=
  [ mkConfig GET "/dashboard/stats" ∅ JUndefined JUndefined;
    mkConfig GET "/dashboard/metrics/current" ∅ JUndefined JUndefined;
    mkConfig GET "/dashboard/sessions/active" ∅ JUndefined JUndefined ].

Fixpoint dispatch_all (backend : list Config → Config → NetReply)
    (configs : list Config) (w : World) : list NetReply * World :=
  match configs with
  | [] => ([], w)
  | config :: rest =>
      let '(sent, w1) := dispatch config w in
      let '(replies, w2) := dispatch_all backend rest w1 in
      (backend (wire w) sent :: replies, w2)
  end.

(** Replies are handled one at a time, each handler running to completion. *)
Fixpoint receive_all (replies : list NetReply) (w : World)
    : list (Completion Response) * World :=
  match replies with
  | [] => ([], w)
  | reply :: rest =>
      let '(c, w1) := receive reply w in
      let '(cs, w2) := receive_all rest w1 in
      (c :: cs, w2)
  end.

Definition concurrent_requests (backend : list Config → Config → NetReply)
    (configs : list Config) (w : World) : list (Completion Response) * World :=
  let '(replies, w1) := dispatch_all backend configs w in
  receive_all replies w1.

(** ** The operations of the program that reach local storage *)

Inductive Operation :=
| ApiCall (config : Config)     (* any call through [api], from any component *)
| AppStart
| Login (username password : string) (totpCode : JsVal)
| Logout
| UpdateUser
| ChangePassword (currentPassword newPassword : JsVal)
| Setup2FA
| Enable2FA (totpCode : JsVal).

Definition perform (backend : list Config → Config → NetReply)
    (JSON_stringify : JsVal → string) (op : Operation) (w : World) : World :=
  match op with
  | ApiCall config => (api_request backend config w).2
  | AppStart => (on_app_start backend w).2
  | Login username password totpCode =>
      (login backend JSON_stringify username password totpCode w).2
  | Logout => (logout w).2
  | UpdateUser => (updateUser backend JSON_stringify w).2
  | ChangePassword currentPassword newPassword =>
      (changePassword backend currentPassword newPassword w).2
  | Setup2FA => (setup2FA backend w).2
  | Enable2FA totpCode => (enable2FA backend JSON_stringify totpCode w).2
  end.

(** ** Vocabulary of the statements *)

(** Both persisted keys are absent. *)
Definition session_cleared (w : World) : Prop :=
  localStorage w !! AUTH_TOKEN = None ∧ localStorage w !! USER_DATA = None.

(** The reply makes the call succeed: a response with a 2xx status. *)
Definition succeeded (reply : NetReply) : bool :=
  match reply with
  | Reply r => (200 <=? status r)%Z && (status r <? 300)%Z
  | NoReply => false
  end.

(** The reply is a response with status 401. *)
Definition unauthorized (reply : NetReply) : bool :=
  match reply with
  | Reply r => (status r =? 401)%Z
  | NoReply => false
  end.

(** What one 401 reply adds to the trace. *)
Definition expiry_events : list Event :=
  [EvRemoveItem AUTH_TOKEN; EvRemoveItem USER_DATA; EvNavigate "/login"].

Definition is_login_navigation (e : Event) : bool :=
  match e with
  | EvNavigate h => String.eqb h "/login"
  | _ => false
  end.

Definition is_removal_of (key : string) (e : Event) : bool :=
  match e with
  | EvRemoveItem k => String.eqb k key
  | _ => false
  end.

Definition count_events (p : Event → bool) (tr : list Event) : nat :=
  length (List.filter p tr).

(** The storage key an event writes or removes, if any. *)
Definition storage_key (e : Event) : option string :=
  match e with
  | EvSetItem k _ | EvRemoveItem k => Some k
  | _ => None
  end.

(** Every removal in the trace is the pair "authToken, then userData",
    back to back. *)
Fixpoint clears_paired (tr : list Event) : bool :=
  match tr with
  | [] => true
  | EvRemoveItem k :: rest =>
      match rest with
      | EvRemoveItem k' :: rest' =>
          String.eqb k AUTH_TOKEN && String.eqb k' USER_DATA && clears_paired rest'
      | _ => false
      end
  | _ :: rest => clears_paired rest
  end.

(** The part of the state the session lives in: storage and the three cells
    of the provider. *)
Definition session_state (w : World) : gmap string string * bool * JsVal * bool :=
  (localStorage w, isAuthenticated w, user w, loading w).

(** What the rejection handler of the response interceptor does to the
    browser on a 401. *)
Definition expire_session (w : World) : World :=
  assign_location_href "/login" (removeItem USER_DATA (removeItem AUTH_TOKEN w)).

(** The error axios raises for a reply that does not succeed. *)
Definition failure_of (reply : NetReply) : Err :=
  match reply with
  | Reply r => AxiosError (Some r)
  | NoReply => AxiosError None
  end.

(** A tab that has never logged in. *)
Definition fresh_tab : World := mkWorld ∅ "/" [] [] false JNull true.

(** A tab with a session in storage and a key of another script next to it. *)
Definition signed_in_tab : World :=
  mkWorld {[ "authToken" := "t0k3n"; "userData" := "{}"; "theme" := "dark" ]}
          "/" [] [] true (JObj {[ "username" := JStr "admin" ]}) false.

(** A backend that answers every request with the same status and body. *)
Definition answering (code : Z) (body : JsVal) : list Config → Config → NetReply :=
  fun _ _ => Reply (mkResponse code ∅ body).

Definition GET_auth_me : Config := mkConfig GET "/auth/me" ∅ JUndefined JUndefined.

(** How a caller recognises the second-factor prompt: [result.requiresTOTP]. *)
Definition requires_second_factor (c : Completion JsVal) : bool :=
  match c with
  | Return v => truthy (opt_member v "requiresTOTP")
  | Throw _ => false
  end.

(** The request [authAPI.login] issues. *)
Definition POST_auth_login (username password : string) (totpCode : JsVal) : Config :=
  mkConfig POST "/auth/login" ∅ JUndefined
    (JObj {[ "username" := JStr username;
             "password" := JStr password;
             "totp_code" := totpCode ]}).

Definition nullish (v : JsVal) : bool :=
  match v with
  | JUndefined | JNull => true
  | _ => false
  end.

(** [response.user || { username }]. *)
Definition session_user (body : JsVal) (username : string) : JsVal :=
  js_or (opt_member body "user") (JObj {[ "username" := JStr username ]}).

(** The storage a trace leaves, replayed over a starting one. *)
Fixpoint replay (tr : list Event) (storage : gmap string string) : gmap string string :=
  match tr with
  | [] => storage
  | EvSetItem k v :: rest => replay rest (<[k := v]> storage)
  | EvRemoveItem k :: rest => replay rest (delete k storage)
  | _ :: rest => replay rest storage
  end.

Definition is_removal (e : Event) : bool :=
  match e with EvRemoveItem _ => true | _ => false end.

Definition is_write (e : Event) : bool :=
  match e with EvSetItem _ _ => true | _ => false end.

Definition session_key (e : Event) : bool :=
  match storage_key e with
  | Some k => String.eqb k AUTH_TOKEN || String.eqb k USER_DATA
  | None => true
  end.

(** The shape every operation's trace has: session keys only, removals in
    pairs, and never a removal and a write in one operation. *)
Definition disciplined (tr : list Event) : bool :=
  forallb session_key tr
  && clears_paired tr
  && (forallb (λ e, negb (is_write e)) tr || forallb (λ e, negb (is_removal e)) tr).

(** The trace an operation adds accounts for what it did to storage, and is
    [disciplined]. *)
Definition accounted (w w' : World) : Prop :=
  ∃ delta,
    trace w' = trace w ++ delta
    ∧ localStorage w' = replay delta (localStorage w)
    ∧ disciplined delta = true.

(** The state of a view on screen, relative to the timer table [t0] it was
    shown on: the handles it has started since are all cleared, but the one
    its pending cleanup will clear; older timers are as they were. *)
Definition view_invariant (t0 : Timers) (m : Mounted) (t : Timers) : Prop :=
  ∃ handles,
    started t = handles ++ started t0
    ∧ handles ≠ []
    ∧ (next_handle t0 ≤ next_handle t)%nat
    ∧ Forall (λ h, next_handle t0 ≤ h < next_handle t)%nat handles
    ∧ (∀ h, (h < next_handle t0)%nat → active t !! h = active t0 !! h)
    ∧ match cleanup m with
      | None => Forall (λ h, active t !! h = None) handles
      | Some c =>
          ∃ h0, c = clearInterval h0 ∧ (next_handle t0 ≤ h0)%nat
                ∧ Forall (λ h, h ≠ h0 → active t !! h = None) handles
      end.

(** ** Page loads and the login form *)

(** Loading the page anew: storage survives, and the provider's cells take
    the initial values of their [useState] calls. *)
Definition page_load (w : World) : World :=
  mkWorld (localStorage w) (location_href w) (wire w) (trace w) false JNull true.

Definition toast_info (message : string) : World → World :=
  emit (EvToast "info" message).

Module LoginPage.

(** The [formData] cell of the login form. *)
Record FormData := mkFormData {
  username : string;
  password : string;
  totpCode : string
}.

(** [handleSubmit], over the provider's [login]: the new value of the
    [requiresTOTP] cell and the browser it leaves. *)
Definition handleSubmit (backend : list Config → Config → NetReply)
    (JSON_stringify : JsVal → string) (formData : FormData) (requiresTOTP : bool)
    : World → Completion bool * World :=
  fun w =>
    match login backend JSON_stringify (username formData) (password formData)
            (JStr (totpCode formData)) w with
    | (Return result, w1) =>
        if truthy (opt_member result "success")
        then (Return requiresTOTP, toast_success "Успешная авторизация" w1)
        else if truthy (opt_member result "requiresTOTP")
        then (Return true, toast_info "Введите код двухфакторной аутентификации" w1)
        else (Return requiresTOTP,
              toast_error
                (to_string (js_or (opt_member result "error") (JStr "Ошибка авторизации")))
                w1)
    | (Throw e, w1) => (Throw e, w1)
    end.

End LoginPage.

(** The reply is the backend's request for a second factor: status 400 with a
    non-empty [x-require-totp] header. *)
Definition asks_second_factor (reply : NetReply) : bool :=
  match reply with
  | Reply r =>
      (status r =? 400)%Z
      && match resp_headers r !! "x-require-totp" with
         | Some v => negb (String.eqb v "")
         | None => false
         end
  | NoReply => false
  end.

(** ** Class names ([lib/utils.js]) *)

Module ClassNames.

(** What a class-name function can be handed: a value, or an array. *)
Inductive Arg :=
| Val (v : JsVal)
| Arr (items : list Arg).

(** [Boolean(cls)]: an array is an object, hence truthy. *)
Definition Boolean (cls : Arg) : bool :=
  match cls with
  | Val v => truthy v
  | Arr _ => true
  end.

(** [typeof cls === 'string' ? cls : '']. *)
Definition string_or_empty (cls : Arg) : string :=
  match cls with
  | Val (JStr s) => s
  | _ => ""
  end.

(** [clsx(...classes)]. *)
Definition clsx (classes : list Arg) : string :=
  String.concat " " (List.map string_or_empty (List.filter Boolean classes)).

(** [twMerge(...classes)]. *)
Definition twMerge (classes : list Arg) : string := clsx classes.

(** [cn(...inputs)]: [clsx] is handed the array [inputs] as its one argument. *)
Definition cn (inputs : list Arg) : string :=
  twMerge [Val (JStr (clsx [Arr inputs]))].

End ClassNames.

(** ** The log view ([LogsViewer]) *)

Module Logs.

Record Log := mkLog {
  id : Z;
  timestamp : string;
  level : string;
  source : string;
  message : string;
  details : JsVal
}.

(** The update of the polling tick: [[newLog, ...prev.slice(0, 99)]]. *)
Definition append_log (newLog : Log) (prev : list Log) : list Log :=
  newLog :: take 99 prev.

(** Several ticks, the logs they generate given oldest first. *)
Definition append_logs (news : list Log) (logs : list Log) : list Log :=
  foldl (fun prev newLog => append_log newLog prev) logs news.

Section Filter.

(** [String.prototype.toLowerCase] and [String.prototype.includes]. *)
Variable toLowerCase : string → string.
Variable includes : string → string → bool.



End Filter.

End Logs.

(** ** The session monitor ([SessionMonitor]) *)

Module Sessions.

(** The update of [terminateSession]:
    [prev.filter(session => session.id !== sessionId)]. *)
Definition terminateSession (sessionId : string) (prev : list (gmap string JsVal))
    : list (gmap string JsVal) :=
  List.filter (fun session => negb (strict_eq_str (prop session "id") sessionId)) prev.

(** [getSessionDuration], over the two times in milliseconds: [now] is
    [new Date()] and [start] is [new Date(startTime)]. *)
Definition getSessionDuration (now start : Z) : string :=
  let diffMs := (now - start)%Z in
  let diffMins := (diffMs / 60000)%Z in
  let diffHours := (diffMins / 60)%Z in
  if (0 <? diffHours)%Z
  then pretty diffHours +:+ "ч " +:+ pretty (Z.rem diffMins 60) +:+ "м"
  else pretty diffMins +:+ "м".

End Sessions.

(** ** The file manager ([FileManager]) *)

Module Files.

Record FileEntry := mkFileEntry {
  name : string;
  type : string;
  size : JsVal;
  modified : string;
  permissions : string
}.

(** A file handed to the page by the browser. *)
Record Upload := mkUpload {
  upload_name : string;
  upload_size : Z
}.

(** The cells of the component, the notices it has shown and the interval
    handles of the window that are live. *)
Record State := mkState {
  files : list FileEntry;
  selectedFiles : list string;
  uploadProgress : Z;
  isUploading : bool;
  notices : list Event;
  next_interval : nat;
  live_intervals : gset nat
}.

(** The update of [handleFileSelect]. *)
Definition toggle_selected (fileName : string) (prev : list string) : list string :=
  if existsb (String.eqb fileName) prev
  then List.filter (fun name => negb (String.eqb name fileName)) prev
  else prev ++ [fileName].

Definition handleFileSelect (fileName : string) (st : State) : State :=
  mkState (files st) (toggle_selected fileName (selectedFiles st)) (uploadProgress st)
          (isUploading st) (notices st) (next_interval st) (live_intervals st).

Definition handleDownload (st : State) : State :=
  if (length (selectedFiles st) =? 0)%nat
  then mkState (files st) (selectedFiles st) (uploadProgress st) (isUploading st)
               (notices st ++ [EvToast "error" "Выберите файлы для скачивания"])
               (next_interval st) (live_intervals st)
  else mkState (files st) [] (uploadProgress st) (isUploading st)
               (notices st
                ++ [EvToast "success"
                      ("Начато скачивание " +:+ pretty (length (selectedFiles st))
                       +:+ " файлов")])
               (next_interval st) (live_intervals st).

Definition handleDelete (st : State) : State :=
  if (length (selectedFiles st) =? 0)%nat
  then mkState (files st) (selectedFiles st) (uploadProgress st) (isUploading st)
               (notices st ++ [EvToast "error" "Выберите файлы для удаления"])
               (next_interval st) (live_intervals st)
  else mkState
         (List.filter
            (fun file => negb (existsb (String.eqb (name file)) (selectedFiles st)))
            (files st))
         [] (uploadProgress st) (isUploading st)
         (notices st
          ++ [EvToast "success"
                ("Удалено файлов: " +:+ pretty (length (selectedFiles st)))])
         (next_interval st) (live_intervals st).

(** [handleFileUpload]: the cells are reset and an interval is started; its
    handle is returned for the ticks. *)
Definition handleFileUpload (st : State) : nat * State :=
  (next_interval st,
   mkState (files st) (selectedFiles st) 0 true (notices st)
           (S (next_interval st)) ({[ next_interval st ]} ∪ live_intervals st)).

(** The entries added for the uploaded files, stamped [now]. *)
Definition uploaded_entries (uploadedFiles : list Upload) (now : string) : list FileEntry :=
  List.map
    (fun file => mkFileEntry (upload_name file) "file" (JNum (upload_size file)) now "rw-")
    uploadedFiles.

(** One firing of the interval [interval] of an upload of [uploadedFiles]: a
    cleared interval does not fire. *)
Definition upload_tick (interval : nat) (uploadedFiles : list Upload) (now : string)
    (st : State) : State :=
  if bool_decide (interval ∈ live_intervals st)
  then
    if (100 <=? uploadProgress st)%Z
    then mkState (files st ++ uploaded_entries uploadedFiles now) (selectedFiles st)
                 100 false
                 (notices st
                  ++ [EvToast "success"
                        ("Загружено файлов: " +:+ pretty (length uploadedFiles))])
                 (next_interval st) (live_intervals st ∖ {[ interval ]})
    else mkState (files st) (selectedFiles st) (uploadProgress st + 10) (isUploading st)
                 (notices st) (next_interval st) (live_intervals st)
  else st.

(** The firings of one interval, at the given times. *)
Definition upload_ticks (interval : nat) (uploadedFiles : list Upload) (times : list string)
    (st : State) : State :=
  foldl (fun st now => upload_tick interval uploadedFiles now st) st times.

End Files.

(** ** The settings page ([Settings]) *)

Module SettingsPage.

Record State := mkState {
  settings : gmap string JsVal;
  hasChanges : bool;
  notices : list Event
}.

Definition handleSettingChange (key : string) (value : JsVal) (st : State) : State :=
  mkState (<[key := value]> (settings st)) true (notices st).

Definition saveSettings (st : State) : State :=
  mkState (settings st) false (notices st ++ [EvToast "success" "Настройки сохранены"]).

Definition resetSettings (st : State) : State :=
  mkState (settings st) false (notices st ++ [EvToast "success" "Настройки сброшены"]).

Definition handleSettingChanges (changes : list (string * JsVal)) (st : State) : State :=
  foldl (fun st change => handleSettingChange change.1 change.2 st) st changes.

End SettingsPage.

(** ** Loading the dashboard ([Dashboard.loadDashboardData]) *)

Module DashboardData.

(** The three calls under [Promise.all], in the order of its array. *)
Inductive Slot := Stats | Metrics | ActiveSessions.

(** The [sessions] cell: the empty array, or the value the backend sent. *)
Inductive SessionList :=
| NoSessions
| SessionsOf (v : JsVal).

Record Cells := mkCells {
  stats : JsVal;
  metrics : JsVal;
  sessions : SessionList;
  lastUpdate : string;
  loading : bool
}.

(** A load in progress: the values that are in, whether [Promise.all] has
    settled, the cells and the browser. *)
Record Load := mkLoad {
  statsData : option JsVal;
  metricsData : option JsVal;
  sessionsData : option JsVal;
  settled : bool;
  cells : Cells;
  world : World
}.

Definition with_world (w : World) (L : Load) : Load :=
  mkLoad (statsData L) (metricsData L) (sessionsData L) (settled L) (cells L) w.

Definition record (slot : Slot) (v : JsVal) (L : Load) : Load :=
  match slot with
  | Stats => mkLoad (Some v) (metricsData L) (sessionsData L) (settled L) (cells L) (world L)
  | Metrics => mkLoad (statsData L) (Some v) (sessionsData L) (settled L) (cells L) (world L)
  | ActiveSessions =>
      mkLoad (statsData L) (metricsData L) (Some v) (settled L) (cells L) (world L)
  end.

(** The [catch] and the [finally]. *)
Definition on_rejected (L : Load) : Load :=
  mkLoad (statsData L) (metricsData L) (sessionsData L) true
    (mkCells (stats (cells L)) (metrics (cells L)) (sessions (cells L))
             (lastUpdate (cells L)) false)
    (toast_error "Failed to load dashboard data"
       (console_error "Error loading dashboard data:" (world L))).

(** The [try] block after the [await], with the three values in, and the
    [finally]; [sessionsData.sessions] throws on a null body, after the first
    two cells have been set. *)
Definition on_fulfilled (now : string) (s m a : JsVal) (L : Load) : Load :=
  if nullish a
  then on_rejected
         (mkLoad (statsData L) (metricsData L) (sessionsData L) (settled L)
            (mkCells s m (sessions (cells L)) (lastUpdate (cells L)) (loading (cells L)))
            (world L))
  else mkLoad (statsData L) (metricsData L) (sessionsData L) true
         (mkCells s m
            (if truthy (opt_member a "sessions")
             then SessionsOf (opt_member a "sessions")
             else NoSessions)
            now false)
         (world L).

(** A reply comes in: the response interceptor runs; [Promise.all] rejects
    on the first failure and fulfils once all three values are in, and
    ignores what comes after it has settled. *)
Definition arrive (now : string) (slot : Slot) (reply : NetReply) (L : Load) : Load :=
  let '(c, w') := receive reply (world L) in
  match c with
  | Return r =>
      let L' := record slot (data r) (with_world w' L) in
      if settled L' then L'
      else
        match statsData L', metricsData L', sessionsData L' with
        | Some s, Some m, Some a => on_fulfilled now s m a L'
        | _, _, _ => L'
        end
  | Throw _ => if settled L then with_world w' L else on_rejected (with_world w' L)
  end.

Definition reply_of (replies : list NetReply) (slot : Slot) : NetReply :=
  match slot with
  | Stats => nth 0 replies NoReply
  | Metrics => nth 1 replies NoReply
  | ActiveSessions => nth 2 replies NoReply
  end.

(** [loadDashboardData]: the three requests go out, and the replies come in
    in the order [order]; [now] is the time [setLastUpdate] reads. *)
Definition loadDashboardData (backend : list Config → Config → NetReply) (now : string)
    (order : list Slot) (current : Cells) (w : World) : Load :=
  let '(replies, w1) := dispatch_all backend dashboardAPI_configs w in
  foldl (fun L slot => arrive now slot (reply_of replies slot) L)
        (mkLoad None None None false current w1) order.

(** The body of a reply. *)
Definition body (reply : NetReply) : JsVal :=
  match reply with
  | Reply r => data r
  | NoReply => JUndefined
  end.

Definition is_load_error (e : Event) : bool :=
  match e with
  | EvToast kind message =>
      String.eqb kind "error" && String.eqb message "Failed to load dashboard data"
  | _ => false
  end.

End DashboardData.

(** * Properties *)

(** ** Storage and the interceptors *)

Lemma clear_both_idem (m : gmap string string) (a b : string) :
  delete b (delete a (delete b (delete a m))) = delete b (delete a m).
Proof.
  apply map_eq. intros k. rewrite !lookup_delete.
  repeat case_decide; done.
Qed.

Lemma expire_session_cleared w : session_cleared (expire_session w).
Proof.
  unfold session_cleared, expire_session, AUTH_TOKEN, USER_DATA. simpl.
  split.
  - rewrite lookup_delete_ne by discriminate. apply lookup_delete_eq.
  - apply lookup_delete_eq.
Qed.

Lemma expire_session_trace w : trace (expire_session w) = trace w ++ expiry_events.
Proof. unfold expire_session, expiry_events. simpl. by rewrite <- !app_assoc. Qed.

Lemma expire_session_state w :
  session_state (expire_session w)
  = (delete USER_DATA (delete AUTH_TOKEN (localStorage w)),
     isAuthenticated w, user w, loading w).
Proof. reflexivity. Qed.

Lemma expire_session_idem w :
  session_state (expire_session (expire_session w)) = session_state (expire_session w)
  ∧ location_href (expire_session (expire_session w)) = location_href (expire_session w).
Proof.
  split; [|reflexivity].
  rewrite !expire_session_state. simpl. by rewrite clear_both_idem.
Qed.

Lemma receive_succeeded reply w :
  succeeded reply = true → ∃ r, reply = Reply r ∧ receive reply w = (Return r, w).
Proof.
  destruct reply as [r|]; [|discriminate]. simpl. intros H.
  exists r. split; [done|]. unfold receive, settle. by rewrite H.
Qed.

Lemma receive_unauthorized r w :
  status r = 401%Z →
  receive (Reply r) w = (Throw (AxiosError (Some r)), expire_session w).
Proof.
  intros H. unfold receive, settle. rewrite H. simpl.
  unfold response_rejected, status_is. simpl. rewrite H. reflexivity.
Qed.

Lemma receive_failed reply w :
  succeeded reply = false → unauthorized reply = false →
  receive reply w = (Throw (failure_of reply), w).
Proof.
  destruct reply as [r|]; simpl; intros Hs Hu.
  - unfold receive, settle. rewrite Hs. unfold response_rejected, status_is. simpl.
    rewrite Hu. reflexivity.
  - reflexivity.
Qed.

Lemma unauthorized_not_succeeded reply : unauthorized reply = true → succeeded reply = false.
Proof. destruct reply as [r|]; simpl; [|done]. intros ?. lia. Qed.

(** The three ways a reply can go. *)
Lemma receive_cases reply w :
  (∃ r, reply = Reply r ∧ succeeded reply = true ∧ receive reply w = (Return r, w))
  ∨ (∃ r, reply = Reply r ∧ status r = 401%Z
       ∧ receive reply w = (Throw (AxiosError (Some r)), expire_session w))
  ∨ (succeeded reply = false ∧ unauthorized reply = false
       ∧ receive reply w = (Throw (failure_of reply), w)).
Proof.
  destruct (succeeded reply) eqn:Hs.
  - left. destruct (receive_succeeded reply w Hs) as (r & ? & ?). eauto.
  - destruct (unauthorized reply) eqn:Hu.
    + right; left. destruct reply as [r|]; [|discriminate]. simpl in Hu.
      exists r. split; [done|]. assert (status r = 401%Z) by lia.
      split; [done|]. by apply receive_unauthorized.
    + right; right. split; [done|]. split; [done|]. by apply receive_failed.
Qed.

Lemma count_events_app p tr1 tr2 :
  count_events p (tr1 ++ tr2) = count_events p tr1 + count_events p tr2.
Proof. unfold count_events. by rewrite List.filter_app, length_app. Qed.

Lemma receive_all_unauthorized replies w :
  Forall (λ reply, unauthorized reply = true) replies →
  (receive_all replies w).2 = Nat.iter (length replies) expire_session w.
Proof.
  intros H. revert w. induction H as [|reply rest Hr _ IH]; intros w; [done|].
  simpl. destruct reply as [r|]; [|discriminate]. simpl in Hr.
  rewrite receive_unauthorized by lia.
  specialize (IH (expire_session w)).
  destruct (receive_all rest (expire_session w)) as [cs w2]. simpl in *.
  rewrite IH. clear. induction (length rest) as [|n IHn]; [done|].
  simpl. by rewrite IHn.
Qed.

Lemma repeated_snoc {A} (l : list A) n :
  mjoin (replicate n l) ++ l = mjoin (replicate (S n) l).
Proof.
  induction n as [|n IH].
  - simpl. by rewrite app_nil_r.
  - change (mjoin (replicate (S n) l)) with (l ++ mjoin (replicate n l)) at 1.
    rewrite <- app_assoc, IH. reflexivity.
Qed.

Lemma iter_expire_trace n w :
  trace (Nat.iter n expire_session w) = trace w ++ mjoin (replicate n expiry_events).
Proof.
  induction n as [|n IH].
  - simpl. by rewrite app_nil_r.
  - by rewrite Nat.iter_succ, expire_session_trace, IH, <- app_assoc, repeated_snoc.
Qed.

Lemma expire_session_state_congr w1 w2 :
  session_state w1 = session_state w2 →
  session_state (expire_session w1) = session_state (expire_session w2).
Proof.
  rewrite !expire_session_state. unfold session_state. intros H.
  injection H as -> -> -> ->. reflexivity.
Qed.

Lemma iter_expire_state n w :
  session_state (Nat.iter (S n) expire_session w) = session_state (expire_session w)
  ∧ location_href (Nat.iter (S n) expire_session w) = "/login".
Proof.
  split; [|reflexivity].
  induction n as [|n IH]; [done|].
  rewrite Nat.iter_succ, (expire_session_state_congr _ _ IH).
  apply expire_session_idem.
Qed.

Lemma count_events_repeated p l n :
  count_events p (mjoin (replicate n l)) = n * count_events p l.
Proof.
  induction n as [|n IH]; [done|].
  rewrite <- repeated_snoc, count_events_app, IH. lia.
Qed.

Lemma count_expiry_events n :
  count_events is_login_navigation (mjoin (replicate n expiry_events)) = n
  ∧ count_events (is_removal_of AUTH_TOKEN) (mjoin (replicate n expiry_events)) = n
  ∧ count_events (is_removal_of USER_DATA) (mjoin (replicate n expiry_events)) = n.
Proof.
  rewrite !count_events_repeated.
  change (count_events is_login_navigation expiry_events) with 1.
  change (count_events (is_removal_of AUTH_TOKEN) expiry_events) with 1.
  change (count_events (is_removal_of USER_DATA) expiry_events) with 1.
  lia.
Qed.

Lemma receive_wire reply w : wire (receive reply w).2 = wire w.
Proof.
  destruct (receive_cases reply w) as [(r & _ & _ & ->)|[(r & _ & _ & ->)|(_ & _ & ->)]];
    reflexivity.
Qed.

Lemma api_request_unfold backend config w :
  api_request backend config w
  = receive (backend (wire w) (dispatch config w).1) (with_wire (dispatch config w).1 w).
Proof. reflexivity. Qed.

(** ** Reduction of browser states *)

Arguments dispatch : simpl never.
Arguments removeItem : simpl never.
Arguments setItem : simpl never.
Arguments assign_location_href : simpl never.
Arguments expire_session : simpl never.
Arguments with_wire : simpl never.

Ltac unfold_monad :=
  unfold setUser, setIsAuthenticated, setLoading, member;
  unfold try_finally, try_catch, bind, act, ret, throw; cbv beta.

(** Reading a field after an update. *)

Lemma localStorage_with_localStorage f w : localStorage (with_localStorage f w) = f (localStorage w).
Proof. reflexivity. Qed.

Lemma location_href_with_localStorage f w : location_href (with_localStorage f w) = location_href w.
Proof. reflexivity. Qed.

Lemma wire_with_localStorage f w : wire (with_localStorage f w) = wire w.
Proof. reflexivity. Qed.

Lemma trace_with_localStorage f w : trace (with_localStorage f w) = trace w.
Proof. reflexivity. Qed.

Lemma isAuthenticated_with_localStorage f w : isAuthenticated (with_localStorage f w) = isAuthenticated w.
Proof. reflexivity. Qed.

Lemma user_with_localStorage f w : user (with_localStorage f w) = user w.
Proof. reflexivity. Qed.

Lemma loading_with_localStorage f w : loading (with_localStorage f w) = loading w.
Proof. reflexivity. Qed.

Lemma localStorage_with_location_href h w : localStorage (with_location_href h w) = localStorage w.
Proof. reflexivity. Qed.

Lemma location_href_with_location_href h w : location_href (with_location_href h w) = h.
Proof. reflexivity. Qed.

Lemma wire_with_location_href h w : wire (with_location_href h w) = wire w.
Proof. reflexivity. Qed.

Lemma trace_with_location_href h w : trace (with_location_href h w) = trace w.
Proof. reflexivity. Qed.

Lemma isAuthenticated_with_location_href h w : isAuthenticated (with_location_href h w) = isAuthenticated w.
Proof. reflexivity. Qed.

Lemma user_with_location_href h w : user (with_location_href h w) = user w.
Proof. reflexivity. Qed.

Lemma loading_with_location_href h w : loading (with_location_href h w) = loading w.
Proof. reflexivity. Qed.

Lemma localStorage_with_wire c w : localStorage (with_wire c w) = localStorage w.
Proof. reflexivity. Qed.

Lemma location_href_with_wire c w : location_href (with_wire c w) = location_href w.
Proof. reflexivity. Qed.

Lemma wire_with_wire c w : wire (with_wire c w) = wire w ++ [c].
Proof. reflexivity. Qed.

Lemma trace_with_wire c w : trace (with_wire c w) = trace w.
Proof. reflexivity. Qed.

Lemma isAuthenticated_with_wire c w : isAuthenticated (with_wire c w) = isAuthenticated w.
Proof. reflexivity. Qed.

Lemma user_with_wire c w : user (with_wire c w) = user w.
Proof. reflexivity. Qed.

Lemma loading_with_wire c w : loading (with_wire c w) = loading w.
Proof. reflexivity. Qed.

Lemma localStorage_emit e w : localStorage (emit e w) = localStorage w.
Proof. reflexivity. Qed.

Lemma location_href_emit e w : location_href (emit e w) = location_href w.
Proof. reflexivity. Qed.

Lemma wire_emit e w : wire (emit e w) = wire w.
Proof. reflexivity. Qed.

Lemma trace_emit e w : trace (emit e w) = trace w ++ [e].
Proof. reflexivity. Qed.

Lemma isAuthenticated_emit e w : isAuthenticated (emit e w) = isAuthenticated w.
Proof. reflexivity. Qed.

Lemma user_emit e w : user (emit e w) = user w.
Proof. reflexivity. Qed.

Lemma loading_emit e w : loading (emit e w) = loading w.
Proof. reflexivity. Qed.

Lemma localStorage_with_isAuthenticated b w : localStorage (with_isAuthenticated b w) = localStorage w.
Proof. reflexivity. Qed.

Lemma location_href_with_isAuthenticated b w : location_href (with_isAuthenticated b w) = location_href w.
Proof. reflexivity. Qed.

Lemma wire_with_isAuthenticated b w : wire (with_isAuthenticated b w) = wire w.
Proof. reflexivity. Qed.

Lemma trace_with_isAuthenticated b w : trace (with_isAuthenticated b w) = trace w.
Proof. reflexivity. Qed.

Lemma isAuthenticated_with_isAuthenticated b w : isAuthenticated (with_isAuthenticated b w) = b.
Proof. reflexivity. Qed.

Lemma user_with_isAuthenticated b w : user (with_isAuthenticated b w) = user w.
Proof. reflexivity. Qed.

Lemma loading_with_isAuthenticated b w : loading (with_isAuthenticated b w) = loading w.
Proof. reflexivity. Qed.

Lemma localStorage_with_user v w : localStorage (with_user v w) = localStorage w.
Proof. reflexivity. Qed.

Lemma location_href_with_user v w : location_href (with_user v w) = location_href w.
Proof. reflexivity. Qed.

Lemma wire_with_user v w : wire (with_user v w) = wire w.
Proof. reflexivity. Qed.

Lemma trace_with_user v w : trace (with_user v w) = trace w.
Proof. reflexivity. Qed.

Lemma isAuthenticated_with_user v w : isAuthenticated (with_user v w) = isAuthenticated w.
Proof. reflexivity. Qed.

Lemma user_with_user v w : user (with_user v w) = v.
Proof. reflexivity. Qed.

Lemma loading_with_user v w : loading (with_user v w) = loading w.
Proof. reflexivity. Qed.

Lemma localStorage_with_loading b w : localStorage (with_loading b w) = localStorage w.
Proof. reflexivity. Qed.

Lemma location_href_with_loading b w : location_href (with_loading b w) = location_href w.
Proof. reflexivity. Qed.

Lemma wire_with_loading b w : wire (with_loading b w) = wire w.
Proof. reflexivity. Qed.

Lemma trace_with_loading b w : trace (with_loading b w) = trace w.
Proof. reflexivity. Qed.

Lemma isAuthenticated_with_loading b w : isAuthenticated (with_loading b w) = isAuthenticated w.
Proof. reflexivity. Qed.

Lemma user_with_loading b w : user (with_loading b w) = user w.
Proof. reflexivity. Qed.

Lemma loading_with_loading b w : loading (with_loading b w) = b.
Proof. reflexivity. Qed.

Create Rewrite HintDb world.

#[global] Hint Rewrite localStorage_with_localStorage location_href_with_localStorage
  wire_with_localStorage trace_with_localStorage isAuthenticated_with_localStorage
  user_with_localStorage loading_with_localStorage localStorage_with_location_href
  location_href_with_location_href wire_with_location_href trace_with_location_href
  isAuthenticated_with_location_href user_with_location_href loading_with_location_href
  localStorage_with_wire location_href_with_wire wire_with_wire trace_with_wire
  isAuthenticated_with_wire user_with_wire loading_with_wire localStorage_emit
  location_href_emit wire_emit trace_emit isAuthenticated_emit user_emit loading_emit
  localStorage_with_isAuthenticated location_href_with_isAuthenticated
  wire_with_isAuthenticated trace_with_isAuthenticated
  isAuthenticated_with_isAuthenticated user_with_isAuthenticated
  loading_with_isAuthenticated localStorage_with_user location_href_with_user
  wire_with_user trace_with_user isAuthenticated_with_user user_with_user
  loading_with_user localStorage_with_loading location_href_with_loading
  wire_with_loading trace_with_loading isAuthenticated_with_loading user_with_loading
  loading_with_loading : world.

(** Field-by-field reduction of a browser state, by rewriting: through the
    updates of single fields only, or through the storage and trace
    operations as well. *)
Ltac world_cells := cbn [fst snd]; autorewrite with world.

Ltac world_simpl :=
  cbn [fst snd];
  unfold expire_session, assign_location_href, removeItem, setItem,
    toast_success, toast_error, console_error, session_state;
  autorewrite with world.

(** The three ways a call can go, with the browser it leaves. *)
Lemma api_request_cases backend config w :
  (∃ r, backend (wire w) (dispatch config w).1 = Reply r
     ∧ succeeded (backend (wire w) (dispatch config w).1) = true
     ∧ api_request backend config w = (Return r, with_wire (dispatch config w).1 w))
  ∨ (∃ r, backend (wire w) (dispatch config w).1 = Reply r
       ∧ status r = 401%Z
       ∧ api_request backend config w
         = (Throw (AxiosError (Some r)), expire_session (with_wire (dispatch config w).1 w)))
  ∨ (succeeded (backend (wire w) (dispatch config w).1) = false
       ∧ unauthorized (backend (wire w) (dispatch config w).1) = false
       ∧ api_request backend config w
         = (Throw (failure_of (backend (wire w) (dispatch config w).1)),
            with_wire (dispatch config w).1 w)).
Proof. rewrite api_request_unfold. apply receive_cases. Qed.

(** ** C1: a 401 reply expires the session *)

(** C1, as amended.  Whatever the endpoint, a call whose reply has status
    401 is rejected with that error after the response interceptor has removed
    both storage keys and assigned "/login" to the location.  The interceptor
    keeps no record of having done so: when several replies with status 401
    are handled, each of them removes the keys and assigns the location again
    (n replies, n navigations), and the storage and location that result are
    those a single one leaves. *)
Theorem unauthorized_reply_expires_session (backend : list Config → Config → NetReply) :
  (∀ config w r,
     backend (wire w) (dispatch config w).1 = Reply r →
     status r = 401%Z →
     (api_request backend config w).1 = Throw (AxiosError (Some r))
     ∧ session_cleared (api_request backend config w).2
     ∧ location_href (api_request backend config w).2 = "/login"
     ∧ trace (api_request backend config w).2 = trace w ++ expiry_events)
  ∧ (∀ replies w,
       Forall (λ reply, unauthorized reply = true) replies →
       ∃ delta,
         trace (receive_all replies w).2 = trace w ++ delta
         ∧ count_events is_login_navigation delta = length replies
         ∧ count_events (is_removal_of AUTH_TOKEN) delta = length replies
         ∧ count_events (is_removal_of USER_DATA) delta = length replies
         ∧ (replies ≠ [] →
            session_cleared (receive_all replies w).2
            ∧ location_href (receive_all replies w).2 = "/login"
            ∧ session_state (receive_all replies w).2 = session_state (expire_session w))).
Proof.
  split.
  - intros config w r Hreply Hstatus.
    rewrite api_request_unfold, Hreply, receive_unauthorized by done. simpl.
    split; [done|]. split; [apply expire_session_cleared|].
    split; [done|]. apply (expire_session_trace (with_wire (dispatch config w).1 w)).
  - intros replies w Hall.
    rewrite (receive_all_unauthorized _ _ Hall).
    exists (mjoin (replicate (length replies) expiry_events)).
    split; [apply iter_expire_trace|].
    destruct (count_expiry_events (length replies)) as (-> & -> & ->).
    do 3 (split; [done|]).
    intros Hne. destruct replies as [|reply rest]; [done|].
    destruct (iter_expire_state (length rest) w) as [Hstate Hhref].
    change (length (reply :: rest)) with (S (length rest)).
    split; [|by split].
    unfold session_cleared. 
    assert (localStorage (Nat.iter (S (length rest)) expire_session w)
            = localStorage (expire_session w)) as -> by (by injection Hstate).
    apply expire_session_cleared.
Qed.

Lemma unauthorized_reply_expires_session_witness :
  (session_cleared (api_request (answering 401 JNull) (mkConfig DELETE "/logs/clear" ∅ JUndefined JUndefined) signed_in_tab).2
   ∧ location_href (api_request (answering 401 JNull) (mkConfig DELETE "/logs/clear" ∅ JUndefined JUndefined) signed_in_tab).2 = "/login")
  ∧ (∃ delta,
       trace (receive_all [Reply (mkResponse 401 ∅ JNull); Reply (mkResponse 401 ∅ JNull)] signed_in_tab).2
       = trace signed_in_tab ++ delta
       ∧ count_events is_login_navigation delta = 2).
Proof.
  split.
  - destruct (proj1 (unauthorized_reply_expires_session (answering 401 JNull))
               (mkConfig DELETE "/logs/clear" ∅ JUndefined JUndefined) signed_in_tab
               (mkResponse 401 ∅ JNull) eq_refl eq_refl) as (_ & Hc & Hh & _).
    exact (conj Hc Hh).
  - destruct (proj2 (unauthorized_reply_expires_session (answering 401 JNull))
               [Reply (mkResponse 401 ∅ JNull); Reply (mkResponse 401 ∅ JNull)] signed_in_tab)
      as (delta & Ht & Hn & _).
    + repeat constructor.
    + exists delta. exact (conj Ht Hn).
Defined.

(** C1, as stated, fails: the three calls [Dashboard] keeps in flight under
    [Promise.all], all answered 401, clear the session three times and assign
    "/login" three times, not once. *)
Lemma three_unauthorized_replies_navigate_three_times :
  let w := (concurrent_requests (answering 401 JNull) dashboardAPI_configs signed_in_tab).2 in
  count_events is_login_navigation (trace w) = 3
  ∧ count_events (is_removal_of AUTH_TOKEN) (trace w) = 3
  ∧ count_events (is_removal_of USER_DATA) (trace w) = 3
  ∧ count_events is_login_navigation (trace w) ≠ 1.
Proof. vm_compute. repeat split; discriminate. Qed.

(** ** C4: logout *)

(** C4.  [logout] cannot fail; after it both storage keys are absent, the
    authenticated flag is false and the user is null; a second [logout]
    leaves storage and the provider's cells as the first one did. *)
Theorem logout_clears_session_and_is_idempotent (w : World) :
  (logout w).1 = Return ()
  ∧ session_cleared (logout w).2
  ∧ isAuthenticated (logout w).2 = false
  ∧ user (logout w).2 = JNull
  ∧ (logout (logout w).2).1 = Return ()
  ∧ session_state (logout (logout w).2).2 = session_state (logout w).2.
Proof.
  assert (Hst : ∀ w0, session_state (logout w0).2
     = (delete USER_DATA (delete AUTH_TOKEN (localStorage w0)), false, JNull, loading w0))
    by reflexivity.
  split; [done|]. split.
  { apply (expire_session_cleared (with_user JNull (with_isAuthenticated false w))). }
  do 3 (split; [done|]).
  rewrite !Hst.
  change (localStorage (logout w).2)
    with (delete USER_DATA (delete AUTH_TOKEN (localStorage w))).
  change (loading (logout w).2) with (loading w).
  by rewrite clear_both_idem.
Qed.

(** ** C6: the Authorization header *)

(** C6, as amended.  The request a call hands to the network carries
    [Authorization: Bearer <token>] when the "authToken" key holds a non-empty
    value [<token>]; when the key is absent or empty the interceptor adds
    nothing and the request goes out with the headers of the call and the
    defaults of the instance. *)
Theorem request_carries_stored_bearer_token
    (backend : list Config → Config → NetReply) (config : Config) (w : World) :
  wire (api_request backend config w).2 = wire w ++ [(dispatch config w).1]
  ∧ (∀ token, getItem AUTH_TOKEN w = Some token → token ≠ "" →
       headers (dispatch config w).1 !! "Authorization" = Some ("Bearer " +:+ token))
  ∧ (getItem AUTH_TOKEN w = None ∨ getItem AUTH_TOKEN w = Some "" →
       headers (dispatch config w).1 = headers config ∪ api_default_headers).
Proof.
  split.
  { rewrite api_request_unfold, receive_wire. reflexivity. }
  unfold dispatch, request_interceptor. simpl. split.
  - intros token -> Hne. simpl.
    destruct (String.eqb_spec token "") as [->|_]; [done|]. simpl.
    apply lookup_insert_eq.
  - intros [-> | ->]; reflexivity.
Qed.

Lemma request_carries_stored_bearer_token_witness :
  headers (dispatch (mkConfig GET "/settings" ∅ JUndefined JUndefined) signed_in_tab).1
    !! "Authorization" = Some "Bearer t0k3n"
  ∧ headers (dispatch (mkConfig GET "/settings" ∅ JUndefined JUndefined) fresh_tab).1
    = ∅ ∪ api_default_headers.
Proof.
  split.
  - apply (proj1 (proj2 (request_carries_stored_bearer_token (answering 200 JNull)
             (mkConfig GET "/settings" ∅ JUndefined JUndefined) signed_in_tab)) "t0k3n").
    + reflexivity.
    + discriminate.
  - apply (proj2 (proj2 (request_carries_stored_bearer_token (answering 200 JNull)
             (mkConfig GET "/settings" ∅ JUndefined JUndefined) fresh_tab))).
    left. reflexivity.
Defined.

(** C6, as stated, fails: the login request of a tab with nothing in storage
    goes out without an Authorization header. *)
Lemma login_request_has_no_authorization_header :
  (λ c, (url c, headers c !! "Authorization"))
    <$> wire (authAPI_login (answering 200 JNull) "admin" "admin123" JNull fresh_tab).2
  = [("/auth/login", None)].
Proof. reflexivity. Qed.

(** ** C8: token verification at application start *)

(** [verifyToken] in closed form. *)
Lemma verifyToken_eq backend w :
  verifyToken backend w =
  match api_request backend GET_auth_me w with
  | (Return r, w1) =>
      (Return (), with_loading false (with_isAuthenticated true (with_user (data r) w1)))
  | (Throw _, w1) =>
      (Return (),
       with_loading false
         (with_user JNull
            (with_isAuthenticated false
               (removeItem USER_DATA (removeItem AUTH_TOKEN w1)))))
  end.
Proof.
  unfold verifyToken, authAPI_getCurrentUser, api_get. unfold_monad.
  fold GET_auth_me.
  by destruct (api_request backend GET_auth_me w) as [[r|e] w1].
Qed.

Lemma on_app_start_with_token backend w token :
  getItem AUTH_TOKEN w = Some token → token ≠ "" →
  on_app_start backend w = verifyToken backend w.
Proof.
  intros Htoken Hne. unfold on_app_start. rewrite Htoken. simpl.
  by destruct (String.eqb_spec token "") as [->|_].
Qed.

Lemma removed_both_cleared w :
  session_cleared (removeItem USER_DATA (removeItem AUTH_TOKEN w)).
Proof. apply (expire_session_cleared w). Qed.


(** C8.  At application start with a (non-empty) token in storage, a
    verification request that fails in any way, without a reply as much as
    with a status outside 2xx, leaves both keys removed and the provider
    unauthenticated; the token is still stored afterwards only if the request
    succeeded, and then storage is untouched. *)
Theorem failed_verification_clears_session
    (backend : list Config → Config → NetReply) (w : World) (token : string) :
  getItem AUTH_TOKEN w = Some token →
  token ≠ "" →
  let reply :=
    backend (wire w) (dispatch GET_auth_me w).1 in
  let w' := (on_app_start backend w).2 in
  (succeeded reply = false →
     session_cleared w' ∧ isAuthenticated w' = false ∧ user w' = JNull ∧ loading w' = false)
  ∧ (is_Some (localStorage w' !! AUTH_TOKEN) → succeeded reply = true)
  ∧ (succeeded reply = true →
     localStorage w' = localStorage w ∧ isAuthenticated w' = true ∧ loading w' = false).
Proof.
  intros Htoken Hne. cbv zeta.
  rewrite (on_app_start_with_token _ _ _ Htoken Hne), verifyToken_eq.
  destruct (api_request_cases backend GET_auth_me w)
    as [(r & _ & Hs & ->)|[(r & Hr & H401 & ->)|(Hs & _ & ->)]].
  - rewrite Hs. world_cells. split; [done|]. split; done.
  - rewrite (unauthorized_not_succeeded (backend (wire w) (dispatch GET_auth_me w).1)).
    2:{ rewrite Hr. unfold unauthorized. lia. }
    unfold session_cleared. world_cells.
    destruct (removed_both_cleared
                (expire_session (with_wire (dispatch GET_auth_me w).1 w))) as [Ha Hu].
    rewrite Ha, Hu. split; [done|]. split; [|done]. by intros [t Ht].
  - rewrite Hs. unfold session_cleared. world_cells.
    destruct (removed_both_cleared (with_wire (dispatch GET_auth_me w).1 w)) as [Ha Hu].
    rewrite Ha, Hu. split; [done|]. split; [|done]. by intros [t Ht].
Qed.

Lemma failed_verification_clears_session_witness :
  session_cleared (on_app_start (fun _ _ => NoReply) signed_in_tab).2
  ∧ isAuthenticated (on_app_start (fun _ _ => NoReply) signed_in_tab).2 = false.
Proof.
  destruct (failed_verification_clears_session (fun _ _ => NoReply) signed_in_tab "t0k3n"
              eq_refl ltac:(discriminate)) as (H & _).
  destruct (H eq_refl) as (Hc & Ha & _).
  exact (conj Hc Ha).
Defined.

(** ** C9, C10: the mock login *)

Lemma mockAuth_login_world users now username password totpCode w :
  (mockAuth_login users now username password totpCode w).2 = w.
Proof.
  unfold mockAuth_login.
  destruct (find_user users username) as [u|]; [|done].
  destruct (negb _); [done|].
  destruct (_ && _); [done|].
  destruct (_ && _); done.
Qed.

(** C9.  [mockAuth.login] looks at the second factor only after the
    credentials: a result that asks for the second factor comes from a known
    user name with the matching password, and an unknown user name or a wrong
    password is answered [{success: false, error: 'Invalid credentials'}]
    whatever the second-factor setting of the user. *)
Theorem credentials_are_checked_before_second_factor
    (users : list (gmap string JsVal)) (now : Z)
    (username password : string) (totpCode : JsVal) (w : World) :
  (requires_second_factor (mockAuth_login users now username password totpCode w).1 = true →
     ∃ u, find_user users username = Some u
          ∧ strict_eq_str (prop u "password") password = true)
  ∧ (find_user users username = None
     ∨ (∃ u, find_user users username = Some u
             ∧ strict_eq_str (prop u "password") password = false) →
     (mockAuth_login users now username password totpCode w).1 = Return invalid_credentials).
Proof.
  unfold mockAuth_login.
  destruct (find_user users username) as [u|]; split.
  - destruct (strict_eq_str (prop u "password") password) eqn:Hp; simpl.
    + intros _. by exists u.
    + vm_compute. discriminate.
  - intros [?|(u' & [= <-] & ->)]; done.
  - vm_compute. discriminate.
  - done.
Qed.

Lemma credentials_are_checked_before_second_factor_witness :
  (∃ u, find_user (mockAuth_users "2025-01-01T00:00:00.000Z") "admin" = Some u
        ∧ strict_eq_str (prop u "password") "admin123" = true)
  ∧ (mockAuth_login (mockAuth_users "2025-01-01T00:00:00.000Z") 1735689600000
       "root" "admin123" JNull fresh_tab).1 = Return invalid_credentials.
Proof.
  split.
  - apply (proj1 (credentials_are_checked_before_second_factor
                    (mockAuth_users "2025-01-01T00:00:00.000Z") 1735689600000
                    "admin" "admin123" JNull fresh_tab)).
    reflexivity.
  - apply (proj2 (credentials_are_checked_before_second_factor
                    (mockAuth_users "2025-01-01T00:00:00.000Z") 1735689600000
                    "root" "admin123" JNull fresh_tab)).
    left. reflexivity.
Defined.

(** C10.  The user object of a successful [mockAuth.login] result is the
    matching entry of the table with its [password] property set to
    [undefined]; every other property is the entry's. *)
Theorem successful_mock_login_drops_password
    (users : list (gmap string JsVal)) (now : Z)
    (username password : string) (totpCode : JsVal) (w : World) (result : JsVal) :
  (mockAuth_login users now username password totpCode w).1 = Return result →
  opt_member result "success" = JBool true →
  ∃ u snapshot,
    find_user users username = Some u
    ∧ opt_member result "user" = JObj snapshot
    ∧ snapshot !! "password" = Some JUndefined
    ∧ ∀ k, k ≠ "password" → snapshot !! k = u !! k.
Proof.
  unfold mockAuth_login.
  destruct (find_user users username) as [u|].
  2:{ intros [= <-]. vm_compute. discriminate. }
  destruct (negb _).
  { intros [= <-]. vm_compute. discriminate. }
  destruct (_ && _).
  { intros [= <-]. vm_compute. discriminate. }
  destruct (_ && _).
  { intros [= <-]. vm_compute. discriminate. }
  intros [= <-] _. exists u, (<["password" := JUndefined]> u).
  split; [done|]. split; [done|]. split.
  - apply lookup_insert_eq.
  - intros k Hk. by apply lookup_insert_ne.
Qed.

Lemma successful_mock_login_drops_password_witness :
  ∃ u snapshot,
    find_user (mockAuth_users "2025-01-01T00:00:00.000Z") "admin" = Some u
    ∧ opt_member
        (JObj {[ "success" := JBool true;
                 "user" := JObj (<["password" := JUndefined]>
                             (default ∅ (head (mockAuth_users "2025-01-01T00:00:00.000Z"))));
                 "token" := JStr "mock_jwt_token_1735689600000" ]}) "user" = JObj snapshot
    ∧ snapshot !! "password" = Some JUndefined
    ∧ ∀ k, k ≠ "password" → snapshot !! k = u !! k.
Proof.
  apply (successful_mock_login_drops_password
           (mockAuth_users "2025-01-01T00:00:00.000Z") 1735689600000
           "admin" "admin123" (JStr "123456") fresh_tab).
  - reflexivity.
  - reflexivity.
Defined.

(** ** C2, C3: login *)

(** [login] in closed form. *)
Lemma login_eq backend JSON_stringify username password totpCode w :
  login backend JSON_stringify username password totpCode w =
  match api_request backend (POST_auth_login username password totpCode)
          (with_loading true w) with
  | (Return r, w1) =>
      if nullish (data r)
      then (Return (login_rejected TypeError), with_loading false w1)
      else
        (Return (JObj {[ "success" := JBool true ]}),
         with_loading false
           (setItem USER_DATA (JSON_stringify (session_user (data r) username))
              (setItem AUTH_TOKEN (to_string (opt_member (data r) "access_token"))
                 (with_isAuthenticated true
                    (with_user (session_user (data r) username) w1)))))
  | (Throw e, w1) => (Return (login_rejected e), with_loading false w1)
  end.
Proof.
  unfold login, authAPI_login, api_post. unfold_monad.
  fold (POST_auth_login username password totpCode).
  destruct (api_request backend _ (with_loading true w)) as [[r|e] w1]; [|done].
  unfold session_user. by destruct (data r).
Qed.

Lemma dispatch_with_loading config b w :
  dispatch config (with_loading b w) = ((dispatch config w).1, with_loading b (dispatch config w).2).
Proof. reflexivity. Qed.

(** C2, as amended.  A login attempt with the right user name and password by
    a user who requires a second factor, made without a code, gets the
    distinguished second-factor result and establishes no session.  For
    [mockAuth.login] that is a table entry with [totpEnabled] whose password
    matches; for the provider's [login] it is the backend's reply with status
    400 and the [x-require-totp] header, after which storage, the
    authenticated flag and the user are what they were. *)
Theorem second_factor_prompt_establishes_no_session
    (backend : list Config → Config → NetReply) (JSON_stringify : JsVal → string) :
  (∀ users now username password totpCode u w,
     find_user users username = Some u →
     strict_eq_str (prop u "password") password = true →
     truthy (prop u "totpEnabled") = true →
     truthy totpCode = false →
     mockAuth_login users now username password totpCode w
     = (Return second_factor_required, w))
  ∧ (∀ username password totpCode w r flag,
       backend (wire w) (dispatch (POST_auth_login username password totpCode) w).1 = Reply r →
       status r = 400%Z →
       resp_headers r !! "x-require-totp" = Some flag →
       flag ≠ "" →
       (login backend JSON_stringify username password totpCode w).1
       = Return (JObj {[ "success" := JBool false;
                         "error" := JStr "Please enter your 2FA code";
                         "requiresTOTP" := JBool true ]})
       ∧ localStorage (login backend JSON_stringify username password totpCode w).2
         = localStorage w
       ∧ trace (login backend JSON_stringify username password totpCode w).2 = trace w
       ∧ isAuthenticated (login backend JSON_stringify username password totpCode w).2
         = isAuthenticated w
       ∧ user (login backend JSON_stringify username password totpCode w).2 = user w).
Proof.
  split.
  - intros users now username password totpCode u w Hfind Hpw Htotp Hcode.
    unfold mockAuth_login.
    by rewrite Hfind, Hpw, Htotp, Hcode.
  - intros username password totpCode w r flag Hreply Hstatus Hflag Hne.
    rewrite login_eq.
    destruct (api_request_cases backend (POST_auth_login username password totpCode)
                (with_loading true w))
      as [(r' & _ & Hs & _)|[(r' & Hr & H401 & _)|(_ & _ & ->)]].
    + exfalso. revert Hs. change (wire (with_loading true w)) with (wire w).
      rewrite dispatch_with_loading. cbn [fst]. rewrite Hreply. unfold succeeded. lia.
    + exfalso. revert Hr. change (wire (with_loading true w)) with (wire w).
      rewrite dispatch_with_loading. cbn [fst]. rewrite Hreply. intros [= <-]. lia.
    + change (wire (with_loading true w)) with (wire w).
      rewrite dispatch_with_loading. cbn [fst]. rewrite Hreply.
      split; [|done].
      cbn [fst failure_of]. unfold login_rejected, status_is, require_totp_header.
      cbn [response]. rewrite Hstatus, Hflag. simpl.
      by destruct (String.eqb_spec flag "") as [->|_].
Qed.

Lemma second_factor_prompt_establishes_no_session_witness :
  mockAuth_login (mockAuth_users "2025-01-01T00:00:00.000Z") 1735689600000
    "admin" "admin123" (JStr "") fresh_tab
  = (Return second_factor_required, fresh_tab)
  ∧ localStorage
      (login (λ _ _, Reply (mkResponse 400 {[ "x-require-totp" := "true" ]} JNull))
             (λ _, "{}") "admin" "admin123" JNull fresh_tab).2
    = localStorage fresh_tab.
Proof.
  split.
  - eapply (proj1 (second_factor_prompt_establishes_no_session
                     (answering 200 JNull) (λ _, "{}"))); reflexivity.
  - apply (proj2 (second_factor_prompt_establishes_no_session
                    (λ _ _, Reply (mkResponse 400 {[ "x-require-totp" := "true" ]} JNull))
                    (λ _, "{}"))
             "admin" "admin123" JNull fresh_tab
             (mkResponse 400 {[ "x-require-totp" := "true" ]} JNull) "true").
    + reflexivity.
    + reflexivity.
    + reflexivity.
    + discriminate.
Defined.

(** C2, as stated, fails: "admin" requires a second factor and no code is
    supplied, but with a wrong password the result is the generic failure,
    not the second-factor result. *)
Lemma wrong_password_gets_no_second_factor_prompt :
  Forall (λ u, truthy (prop u "totpEnabled") = true)
         (mockAuth_users "2025-01-01T00:00:00.000Z")
  ∧ (mockAuth_login (mockAuth_users "2025-01-01T00:00:00.000Z") 1735689600000
       "admin" "wrongpass" JNull fresh_tab).1 = Return invalid_credentials
  ∧ requires_second_factor
      (mockAuth_login (mockAuth_users "2025-01-01T00:00:00.000Z") 1735689600000
         "admin" "wrongpass" JNull fresh_tab).1 = false.
Proof. split; [repeat constructor|]. split; reflexivity. Qed.

(** C3, as amended.  [mockAuth.login] answers the three scenarios: the
    second-factor result for ("admin", "admin123") without a code, a success
    result carrying the user and the token "mock_jwt_token_<now>" for
    ("admin", "admin123", "123456"), and
    [{success: false, error: 'Invalid credentials'}] for ("admin",
    "wrongpass"); it writes nothing.  The token is persisted by the
    provider's [login]: when the backend accepts the request, it returns
    [{success: true}], stores the access token under "authToken" and the
    serialised user under "userData", and sets the authenticated flag; when
    the backend rejects it with a status other than 400, the error of the
    result is the [detail] of the reply, or 'Authentication failed' without
    one. *)
Theorem login_scenarios
    (backend : list Config → Config → NetReply) (JSON_stringify : JsVal → string)
    (lastLogin : string) (now : Z) (w : World) :
  mockAuth_login (mockAuth_users lastLogin) now "admin" "admin123" JNull w
  = (Return second_factor_required, w)
  ∧ (∃ u, find_user (mockAuth_users lastLogin) "admin" = Some u
       ∧ mockAuth_login (mockAuth_users lastLogin) now "admin" "admin123" (JStr "123456") w
         = (Return (JObj {[ "success" := JBool true;
                            "user" := JObj (<["password" := JUndefined]> u);
                            "token" := JStr ("mock_jwt_token_" +:+ pretty now) ]}), w))
  ∧ mockAuth_login (mockAuth_users lastLogin) now "admin" "wrongpass" JNull w
    = (Return invalid_credentials, w)
  ∧ (∀ username password totpCode r,
       backend (wire w) (dispatch (POST_auth_login username password totpCode) w).1 = Reply r →
       succeeded (Reply r) = true →
       nullish (data r) = false →
       (login backend JSON_stringify username password totpCode w).1
       = Return (JObj {[ "success" := JBool true ]})
       ∧ localStorage (login backend JSON_stringify username password totpCode w).2
           !! AUTH_TOKEN = Some (to_string (opt_member (data r) "access_token"))
       ∧ localStorage (login backend JSON_stringify username password totpCode w).2
           !! USER_DATA = Some (JSON_stringify (session_user (data r) username))
       ∧ isAuthenticated (login backend JSON_stringify username password totpCode w).2 = true
       ∧ user (login backend JSON_stringify username password totpCode w).2
         = session_user (data r) username)
  ∧ (∀ username password totpCode r,
       backend (wire w) (dispatch (POST_auth_login username password totpCode) w).1 = Reply r →
       succeeded (Reply r) = false →
       status r ≠ 400%Z →
       (login backend JSON_stringify username password totpCode w).1
       = Return (JObj {[ "success" := JBool false;
                         "error" := js_or (opt_member (data r) "detail")
                                          (JStr "Authentication failed");
                         "requiresTOTP" := JBool false ]})).
Proof.
  split; [reflexivity|]. split; [eexists; split; reflexivity|]. split; [reflexivity|].
  split.
  - intros username password totpCode r Hreply Hs Hbody.
    rewrite login_eq.
    destruct (api_request_cases backend (POST_auth_login username password totpCode)
                (with_loading true w))
      as [(r' & Hr & _ & ->)|[(r' & Hr & H401 & _)|(Hs' & _ & _)]].
    + revert Hr. change (wire (with_loading true w)) with (wire w).
      rewrite dispatch_with_loading. cbn [fst]. rewrite Hreply. intros [= <-].
      rewrite Hbody. world_simpl. split; [done|].
      split; [|split; [|done]].
      * rewrite lookup_insert_ne by discriminate. apply lookup_insert_eq.
      * apply lookup_insert_eq.
    + exfalso. revert Hr. change (wire (with_loading true w)) with (wire w).
      rewrite dispatch_with_loading. cbn [fst]. rewrite Hreply. intros [= <-].
      revert Hs. unfold succeeded. lia.
    + exfalso. revert Hs'. change (wire (with_loading true w)) with (wire w).
      rewrite dispatch_with_loading. cbn [fst]. rewrite Hreply. congruence.
  - intros username password totpCode r Hreply Hs H400.
    assert (Hrejected : login_rejected (AxiosError (Some r))
              = JObj {[ "success" := JBool false;
                        "error" := js_or (opt_member (data r) "detail")
                                         (JStr "Authentication failed");
                        "requiresTOTP" := JBool false ]}).
    { unfold login_rejected, status_is, error_detail, js_or. cbn [response].
      rewrite (proj2 (Z.eqb_neq _ _) H400). cbn [andb].
      by destruct (truthy (opt_member (data r) "detail")). }
    rewrite login_eq.
    destruct (api_request_cases backend (POST_auth_login username password totpCode)
                (with_loading true w))
      as [(r' & _ & Hs' & _)|[(r' & Hr & _ & ->)|(_ & _ & ->)]].
    + exfalso. revert Hs'. change (wire (with_loading true w)) with (wire w).
      rewrite dispatch_with_loading. cbn [fst]. rewrite Hreply. congruence.
    + revert Hr. change (wire (with_loading true w)) with (wire w).
      rewrite dispatch_with_loading. cbn [fst]. rewrite Hreply. intros [= <-].
      cbn [fst]. by rewrite Hrejected.
    + change (wire (with_loading true w)) with (wire w).
      rewrite dispatch_with_loading. cbn [fst]. rewrite Hreply.
      cbn [fst failure_of]. by rewrite Hrejected.
Qed.

Lemma login_scenarios_witness :
  localStorage
    (login (answering 200 (JObj {[ "access_token" := JStr "eyJhbGciOi" ]}))
           (λ _, "{}") "admin" "admin123" (JStr "123456") fresh_tab).2 !! AUTH_TOKEN
  = Some "eyJhbGciOi"
  ∧ (login (answering 403 (JObj {[ "detail" := JStr "Account locked" ]}))
           (λ _, "{}") "admin" "admin123" (JStr "123456") fresh_tab).1
    = Return (JObj {[ "success" := JBool false;
                      "error" := JStr "Account locked";
                      "requiresTOTP" := JBool false ]}).
Proof.
  split.
  - destruct (login_scenarios (answering 200 (JObj {[ "access_token" := JStr "eyJhbGciOi" ]}))
                (λ _, "{}") "2025-01-01T00:00:00.000Z" 1735689600000 fresh_tab)
      as (_ & _ & _ & Hlogin & _).
    destruct (Hlogin "admin" "admin123" (JStr "123456")
                (mkResponse 200 ∅ (JObj {[ "access_token" := JStr "eyJhbGciOi" ]}))
                eq_refl eq_refl eq_refl) as (_ & Htoken & _).
    exact Htoken.
  - destruct (login_scenarios (answering 403 (JObj {[ "detail" := JStr "Account locked" ]}))
                (λ _, "{}") "2025-01-01T00:00:00.000Z" 1735689600000 fresh_tab)
      as (_ & _ & _ & _ & Hrejected).
    apply (Hrejected "admin" "admin123" (JStr "123456")
             (mkResponse 403 ∅ (JObj {[ "detail" := JStr "Account locked" ]}))
             eq_refl eq_refl).
    discriminate.
Defined.

(** C3, as stated, fails.  [mockAuth.login("admin", "admin123", "123456")]
    returns its success result and the token in it, and stores nothing; and
    the provider's [login("admin", "wrongpass")], against a backend that
    rejects with 401 and no [detail], reports 'Authentication failed', not
    "Invalid credentials". *)
Lemma mock_login_persists_nothing :
  (opt_member
     match (mockAuth_login (mockAuth_users "2025-01-01T00:00:00.000Z") 1735689600000
              "admin" "admin123" (JStr "123456") fresh_tab).1 with
     | Return result => result
     | Throw _ => JUndefined
     end "token" = JStr "mock_jwt_token_1735689600000"
   ∧ getItem AUTH_TOKEN
       (mockAuth_login (mockAuth_users "2025-01-01T00:00:00.000Z") 1735689600000
          "admin" "admin123" (JStr "123456") fresh_tab).2 = None
   ∧ trace
       (mockAuth_login (mockAuth_users "2025-01-01T00:00:00.000Z") 1735689600000
          "admin" "admin123" (JStr "123456") fresh_tab).2 = [])
  ∧ (login (answering 401 (JObj ∅)) (λ _, "{}") "admin" "wrongpass" JNull fresh_tab).1
    = Return (JObj {[ "success" := JBool false;
                      "error" := JStr "Authentication failed";
                      "requiresTOTP" := JBool false ]}).
Proof. repeat split; reflexivity. Qed.

(** ** C5: the two storage keys *)

Lemma replay_other_keys tr storage k :
  forallb session_key tr = true → k ≠ AUTH_TOKEN → k ≠ USER_DATA →
  replay tr storage !! k = storage !! k.
Proof.
  intros Hkeys Ha Hu. revert storage Hkeys.
  induction tr as [|e rest IH]; intros storage Hkeys; [done|].
  apply andb_prop in Hkeys as [He Hrest].
  destruct e as [k' v|k'| | |]; simpl; rewrite IH by done; try done.
  - apply lookup_insert_ne. intros ->.
    unfold session_key in He. simpl in He.
    apply orb_prop in He as [He|He]; apply String.eqb_eq in He; congruence.
  - apply lookup_delete_ne. intros ->.
    unfold session_key in He. simpl in He.
    apply orb_prop in He as [He|He]; apply String.eqb_eq in He; congruence.
Qed.

Lemma replay_keeps_absent tr storage k :
  forallb (λ e, negb (is_write e)) tr = true →
  storage !! k = None → replay tr storage !! k = None.
Proof.
  revert storage. induction tr as [|e rest IH]; intros storage Hw Hk; [done|].
  apply andb_prop in Hw as [He Hrest].
  destruct e as [k' v|k'| | |]; simpl.
  - discriminate.
  - apply IH; [done|]. rewrite lookup_delete. by case_decide.
  - by apply IH.
  - by apply IH.
  - by apply IH.
Qed.

Lemma replay_paired_clears tr storage :
  clears_paired tr = true →
  forallb (λ e, negb (is_write e)) tr = true →
  existsb is_removal tr = true →
  replay tr storage !! AUTH_TOKEN = None ∧ replay tr storage !! USER_DATA = None.
Proof.
  revert storage. induction tr as [|e rest IH]; intros storage Hp Hw Hr; [done|].
  apply andb_prop in Hw as [He Hrest].
  destruct e as [k' v|k'| | |]; [discriminate| |by apply IH..].
  destruct rest as [|[| k'' | | |] rest']; try done.
  simpl in Hp. apply andb_prop in Hp as [Hk _]. apply andb_prop in Hk as [Hk' Hk''].
  apply String.eqb_eq in Hk' as ->. apply String.eqb_eq in Hk'' as ->.
  apply andb_prop in Hrest as [_ Hrest'].
  simpl. split; apply replay_keeps_absent; try done.
  - rewrite lookup_delete_ne by discriminate. apply lookup_delete_eq.
  - apply lookup_delete_eq.
Qed.

Lemma existsb_removal tr k : EvRemoveItem k ∈ tr → existsb is_removal tr = true.
Proof.
  intros H. apply existsb_exists. exists (EvRemoveItem k).
  split; [by apply list_elem_of_In|done].
Qed.

(** What [disciplined] gives once the trace is known to account for the
    storage. *)
Lemma disciplined_sound w w' delta :
  trace w' = trace w ++ delta →
  localStorage w' = replay delta (localStorage w) →
  disciplined delta = true →
  (∀ e k, e ∈ delta → storage_key e = Some k → k = AUTH_TOKEN ∨ k = USER_DATA)
  ∧ clears_paired delta = true
  ∧ (∀ k, k ≠ AUTH_TOKEN → k ≠ USER_DATA → localStorage w' !! k = localStorage w !! k)
  ∧ ((∃ k, EvRemoveItem k ∈ delta) → session_cleared w').
Proof.
  intros _ Hstorage Hd. unfold disciplined in Hd.
  apply andb_prop in Hd as [Hd Hshape]. apply andb_prop in Hd as [Hkeys Hpaired].
  split; [|split; [done|split]].
  - intros e k He Hk.
    assert (session_key e = true) as Hs.
    { eapply forallb_forall; [exact Hkeys|]. by apply list_elem_of_In. }
    unfold session_key in Hs. rewrite Hk in Hs.
    apply orb_prop in Hs as [Hs|Hs]; apply String.eqb_eq in Hs; auto.
  - intros k Ha Hu. rewrite Hstorage. by apply replay_other_keys.
  - intros [k Hk]. unfold session_cleared. rewrite Hstorage.
    apply orb_prop in Hshape as [Hnw|Hnr].
    + apply replay_paired_clears; [done|done|]. by eapply existsb_removal.
    + exfalso.
      assert (negb (is_removal (EvRemoveItem k)) = true) as Hs; [|done].
      eapply (forallb_forall (λ e, negb (is_removal e))); [exact Hnr|].
      by apply list_elem_of_In.
Qed.

Ltac split_call :=
  match goal with
  | |- context [api_request ?b ?c ?w0] =>
      let Heq := fresh "Heq" in
      destruct (api_request_cases b c w0)
        as [(? & _ & _ & Heq)|[(? & _ & _ & Heq)|(_ & _ & Heq)]];
      rewrite Heq; clear Heq; cbv beta iota
  end.

Ltac close_accounted :=
  unfold accounted; eexists;
  split;
    [ world_simpl; rewrite <- ?app_assoc;
      first [reflexivity | symmetry; apply app_nil_r]
    | split; [world_simpl; reflexivity | reflexivity] ].

Lemma perform_accounted backend JSON_stringify op w :
  accounted w (perform backend JSON_stringify op w).
Proof.
  destruct op; unfold perform.
  - split_call; close_accounted.
  - unfold on_app_start.
    destruct (getItem AUTH_TOKEN w) as [token|]; [destruct (truthy (JStr token))|].
    + rewrite verifyToken_eq. split_call; close_accounted.
    + unfold_monad. close_accounted.
    + unfold_monad. close_accounted.
  - rewrite login_eq. split_call; [destruct (nullish (data _))|..]; close_accounted.
  - unfold logout. unfold_monad. close_accounted.
  - unfold updateUser, authAPI_getCurrentUser, api_get. unfold_monad.
    split_call; close_accounted.
  - unfold changePassword, authAPI_changePassword, report_failure, api_post. unfold_monad.
    split_call; close_accounted.
  - unfold setup2FA, authAPI_setup2FA, report_failure, api_post. unfold_monad.
    split_call; close_accounted.
  - unfold enable2FA, authAPI_enable2FA, report_failure, api_post,
      updateUser, authAPI_getCurrentUser, api_get. unfold_monad.
    split_call; [split_call|..]; close_accounted.
Qed.

(** C5.  Every operation of the program writes and removes only the two keys
    "authToken" and "userData"; whenever it removes one it removes the other
    in the next statement, so that both are absent when it is done; every
    other key of the storage is left as it was. *)
Theorem storage_keys_are_cleared_together
    (backend : list Config → Config → NetReply) (JSON_stringify : JsVal → string)
    (op : Operation) (w : World) :
  ∃ delta,
    trace (perform backend JSON_stringify op w) = trace w ++ delta
    ∧ (∀ e k, e ∈ delta → storage_key e = Some k → k = AUTH_TOKEN ∨ k = USER_DATA)
    ∧ clears_paired delta = true
    ∧ (∀ k, k ≠ AUTH_TOKEN → k ≠ USER_DATA →
         localStorage (perform backend JSON_stringify op w) !! k = localStorage w !! k)
    ∧ ((∃ k, EvRemoveItem k ∈ delta) →
         session_cleared (perform backend JSON_stringify op w)).
Proof.
  destruct (perform_accounted backend JSON_stringify op w) as (delta & Ht & Hs & Hd).
  exists delta. split; [done|]. by apply (disciplined_sound w).
Qed.

Lemma storage_keys_are_cleared_together_witness :
  ∃ delta,
    trace (perform (answering 401 JNull) (λ _, "{}") (Enable2FA (JStr "123456")) signed_in_tab)
    = trace signed_in_tab ++ delta
    ∧ clears_paired delta = true.
Proof.
  destruct (storage_keys_are_cleared_together (answering 401 JNull) (λ _, "{}")
              (Enable2FA (JStr "123456")) signed_in_tab) as (delta & Ht & _ & Hp & _).
  exists delta. exact (conj Ht Hp).
Defined.

(** ** C7: polling timers and visibility *)

(** An effect either starts nothing, or starts one interval and returns the
    cleanup that clears it. *)
Lemma polling_effect_cases v autoRefresh t :
  (v = LogsViewer ∧ autoRefresh = false ∧ polling_effect v autoRefresh t = (None, t))
  ∨ ∃ cb ms,
      polling_effect v autoRefresh t
      = (Some (clearInterval (next_handle t)), (setInterval cb ms t).2).
Proof.
  destruct v; simpl.
  - right. by exists LoadDashboardData, 30000%Z.
  - right. by exists JitterBandwidth, 2000%Z.
  - destruct autoRefresh.
    + right. by exists AppendLog, 5000%Z.
    + left. done.
Qed.

Lemma show_starts_timer v t :
  ∃ cb ms, show v t = (mkMounted v true (Some (clearInterval (next_handle t))),
                       (setInterval cb ms t).2).
Proof.
  unfold show.
  destruct (polling_effect_cases v true t) as [(_ & [=] & _)|(cb & ms & ->)].
  by exists cb, ms.
Qed.

Lemma view_invariant_show v t : view_invariant t (show v t).1 (show v t).2.
Proof.
  destruct (show_starts_timer v t) as (cb & ms & ->).
  unfold view_invariant. simpl.
  exists [next_handle t]. split; [done|]. split; [done|]. split; [lia|].
  split; [constructor; [lia|constructor]|]. split.
  - intros h Hh. apply lookup_insert_ne. lia.
  - exists (next_handle t). split; [done|]. split; [lia|].
    constructor; [done|constructor].
Qed.

(** Running the pending cleanup leaves every handle of the view cleared. *)
Lemma run_cleanup_clears t0 m t handles :
  Forall (λ h, next_handle t0 ≤ h < next_handle t) handles →
  (∀ h, h < next_handle t0 → active t !! h = active t0 !! h) →
  match cleanup m with
  | None => Forall (λ h, active t !! h = None) handles
  | Some c =>
      ∃ h0, c = clearInterval h0 ∧ next_handle t0 ≤ h0
            ∧ Forall (λ h, h ≠ h0 → active t !! h = None) handles
  end →
  next_handle (run_cleanup (cleanup m) t) = next_handle t
  ∧ started (run_cleanup (cleanup m) t) = started t
  ∧ Forall (λ h, active (run_cleanup (cleanup m) t) !! h = None) handles
  ∧ (∀ h, h < next_handle t0 → active (run_cleanup (cleanup m) t) !! h = active t0 !! h).
Proof.
  intros Hrange Hold Hc.
  destruct (cleanup m) as [c|]; simpl.
  - destruct Hc as (h0 & -> & Hh0 & Hrest). simpl.
    split; [done|]. split; [done|]. split.
    + eapply Forall_impl; [exact Hrest|]. intros h Hh. simpl in Hh.
      rewrite lookup_delete. case_decide; [done|]. apply Hh. congruence.
    + intros h Hh. rewrite lookup_delete_ne by lia. by apply Hold.
  - done.
Qed.

Lemma view_invariant_event t0 e m t :
  view_invariant t0 m t →
  view_invariant t0 (view_event e m t).1 (view_event e m t).2.
Proof.
  intros Hinv. unfold view_event.
  destruct e; [done|]. destruct (view m) eqn:Hv; [done|done|].
  destruct Hinv as (handles & Hstarted & Hne & Hnext & Hrange & Hold & Hc).
  destruct (run_cleanup_clears t0 m t handles Hrange Hold Hc)
    as (Hn' & Hs' & Hclear & Hold').
  set (t1 := run_cleanup (cleanup m) t) in *.
  destruct (polling_effect_cases LogsViewer (negb (isAutoRefresh m)) t1)
    as [(_ & _ & ->)|(cb & ms & ->)]; unfold view_invariant; simpl.
  - exists handles. rewrite Hs', Hn'. done.
  - exists (next_handle t1 :: handles). rewrite Hs', Hn', Hstarted.
    split; [done|]. split; [done|]. split; [lia|]. split; [|split].
    + constructor; [lia|]. eapply Forall_impl; [exact Hrange|]. simpl. lia.
    + intros h Hh. rewrite lookup_insert_ne by lia. by apply Hold'.
    + exists (next_handle t). split; [by rewrite <- Hn'|]. split; [lia|].
      constructor; [done|].
      apply Forall_forall. intros h Hh Hneq.
      rewrite lookup_insert_ne by (rewrite ?Hn'; congruence).
      by eapply (proj1 (Forall_forall _ _) Hclear).
Qed.

Lemma view_invariant_events t0 es m t :
  view_invariant t0 m t →
  view_invariant t0 (view_events es m t).1 (view_events es m t).2.
Proof.
  revert m t. induction es as [|e es IH]; intros m t Hinv; [done|].
  simpl. pose proof (view_invariant_event t0 e m t Hinv) as Hstep.
  destruct (view_event e m t) as [m' t']. by apply IH.
Qed.

(** C7.  A view that has been shown and is hidden again leaves none of the
    timers it started running: every handle [setInterval] returned to it
    (there is at least one) is cleared once the view is hidden, whatever
    happened while it was on screen, and the timers that were running
    before it was shown are untouched. *)
Theorem polling_timer_is_cleared_on_hide (v : View) (es : list ViewEvent) (t : Timers) :
  ∃ handles,
    started (visit v es t) = handles ++ started t
    ∧ handles ≠ []
    ∧ (∀ h, h ∈ handles → active (visit v es t) !! h = None)
    ∧ (∀ h, h < next_handle t → active (visit v es t) !! h = active t !! h).
Proof.
  unfold visit.
  pose proof (view_invariant_show v t) as Hshow.
  destruct (show v t) as [m t1].
  pose proof (view_invariant_events t es m t1 Hshow) as Hinv.
  destruct (view_events es m t1) as [m' t2]. simpl in Hinv.
  destruct Hinv as (handles & Hstarted & Hne & Hnext & Hrange & Hold & Hc).
  destruct (run_cleanup_clears t m' t2 handles Hrange Hold Hc)
    as (_ & Hs' & Hclear & Hold').
  exists handles. unfold hide. rewrite Hs'.
  split; [done|]. split; [done|]. split; [|done].
  by apply Forall_forall.
Qed.

Lemma polling_timer_is_cleared_on_hide_witness :
  ∃ handles,
    started (visit LogsViewer [ToggleAutoRefresh; Rerender; ToggleAutoRefresh]
               (mkTimers 4 {[ 2 := mkInterval LoadDashboardData 30000 ]} [2; 1]))
    = handles ++ [2; 1]
    ∧ ∀ h, h ∈ handles →
        active (visit LogsViewer [ToggleAutoRefresh; Rerender; ToggleAutoRefresh]
                  (mkTimers 4 {[ 2 := mkInterval LoadDashboardData 30000 ]} [2; 1])) !! h
        = None.
Proof.
  destruct (polling_timer_is_cleared_on_hide LogsViewer
              [ToggleAutoRefresh; Rerender; ToggleAutoRefresh]
              (mkTimers 4 {[ 2 := mkInterval LoadDashboardData 30000 ]} [2; 1]))
    as (handles & Hs & _ & Hc & _).
  exists handles. exact (conj Hs Hc).
Defined.

(** * Further properties of the session code *)

(** ** The request interceptor and replies other than 401 *)




(** X2.  A call whose reply is not a 401, be it a success, another error
    status or no reply at all, leaves the browser as it was but for the
    request it put on the wire: storage, location, trace and the provider's
    cells are untouched. *)
Theorem only_unauthorized_replies_touch_the_session
    (backend : list Config → Config → NetReply) (config : Config) (w : World) :
  unauthorized (backend (wire w) (dispatch config w).1) = false →
  localStorage (api_request backend config w).2 = localStorage w
  ∧ location_href (api_request backend config w).2 = location_href w
  ∧ trace (api_request backend config w).2 = trace w
  ∧ session_state (api_request backend config w).2 = session_state w
  ∧ wire (api_request backend config w).2 = wire w ++ [(dispatch config w).1].
Proof.
  intros Hu.
  destruct (api_request_cases backend config w)
    as [(r & _ & _ & ->)|[(r & Hr & H401 & _)|(_ & _ & ->)]].
  - done.
  - exfalso. revert Hu. rewrite Hr. unfold unauthorized. lia.
  - done.
Qed.

Lemma only_unauthorized_replies_touch_the_session_witness :
  localStorage (api_request (answering 500 JNull)
                  (mkConfig GET "/dashboard/stats" ∅ JUndefined JUndefined) signed_in_tab).2
  = localStorage signed_in_tab.
Proof.
  apply (only_unauthorized_replies_touch_the_session (answering 500 JNull)
           (mkConfig GET "/dashboard/stats" ∅ JUndefined JUndefined) signed_in_tab).
  reflexivity.
Defined.

(** ** The provider's operations *)

Lemma login_rejected_success error : opt_member (login_rejected error) "success" = JBool false.
Proof.
  unfold login_rejected.
  destruct (status_is error 400 && require_totp_header error); [reflexivity|].
  destruct (truthy (error_detail error)); reflexivity.
Qed.

Lemma login_rejected_other r :
  status r ≠ 400%Z →
  login_rejected (AxiosError (Some r))
  = JObj {[ "success" := JBool false;
            "error" := js_or (opt_member (data r) "detail") (JStr "Authentication failed");
            "requiresTOTP" := JBool false ]}.
Proof.
  intros H400. unfold login_rejected, status_is, error_detail, js_or. cbn [response].
  rewrite (proj2 (Z.eqb_neq _ _) H400). cbn [andb].
  by destruct (truthy (opt_member (data r) "detail")).
Qed.

(** X3.  [login] never throws and always ends with the loading flag down.
    Either it returns [{success: true}] with the authenticated flag set and
    both keys stored, or it returns a result whose [success] is [false] and
    then has written nothing to storage and has left the authenticated flag
    and the user as they were. *)
Theorem login_establishes_a_session_only_on_success
    (backend : list Config → Config → NetReply) (JSON_stringify : JsVal → string)
    (username password : string) (totpCode : JsVal) (w : World) :
  ∃ result delta,
    (login backend JSON_stringify username password totpCode w).1 = Return result
    ∧ loading (login backend JSON_stringify username password totpCode w).2 = false
    ∧ trace (login backend JSON_stringify username password totpCode w).2 = trace w ++ delta
    ∧ ((result = JObj {[ "success" := JBool true ]}
        ∧ isAuthenticated (login backend JSON_stringify username password totpCode w).2 = true
        ∧ is_Some (localStorage (login backend JSON_stringify username password totpCode w).2
                     !! AUTH_TOKEN)
        ∧ is_Some (localStorage (login backend JSON_stringify username password totpCode w).2
                     !! USER_DATA))
       ∨ (opt_member result "success" = JBool false
          ∧ isAuthenticated (login backend JSON_stringify username password totpCode w).2
            = isAuthenticated w
          ∧ user (login backend JSON_stringify username password totpCode w).2 = user w
          ∧ Forall (λ e, is_write e = false) delta)).
Proof.
  rewrite login_eq. split_call; [destruct (nullish (data _))|..].
  - exists (login_rejected TypeError), []. world_simpl.
    split; [done|]. split; [done|]. split; [by rewrite app_nil_r|].
    right. split; [reflexivity|]. done.
  - eexists _, _. world_simpl. split; [done|]. split; [done|].
    split; [by rewrite <- app_assoc|].
    left. split; [done|]. split; [done|]. unfold AUTH_TOKEN, USER_DATA. split.
    + rewrite lookup_insert_ne by discriminate. rewrite lookup_insert_eq. by eexists.
    + rewrite lookup_insert_eq. by eexists.
  - eexists _, _. world_simpl. split; [done|]. split; [done|].
    split; [by rewrite <- !app_assoc|].
    right. split; [apply login_rejected_success|]. split; [done|]. split; [done|].
    by repeat constructor.
  - eexists _, []. world_simpl. split; [done|]. split; [done|].
    split; [by rewrite app_nil_r|].
    right. split; [apply login_rejected_success|]. done.
Qed.

(** X4.  A login the backend answers with 401 goes through the response
    interceptor like any other call: the stored session is removed and the
    location is set to "/login", [login] returns its generic failure, and the
    authenticated flag and the user of the provider keep their values. *)
Theorem login_answered_401_expires_the_stored_session
    (backend : list Config → Config → NetReply) (JSON_stringify : JsVal → string)
    (username password : string) (totpCode : JsVal) (w : World) (r : Response) :
  backend (wire w) (dispatch (POST_auth_login username password totpCode) w).1 = Reply r →
  status r = 401%Z →
  (login backend JSON_stringify username password totpCode w).1
  = Return (JObj {[ "success" := JBool false;
                    "error" := js_or (opt_member (data r) "detail")
                                     (JStr "Authentication failed");
                    "requiresTOTP" := JBool false ]})
  ∧ session_cleared (login backend JSON_stringify username password totpCode w).2
  ∧ location_href (login backend JSON_stringify username password totpCode w).2 = "/login"
  ∧ isAuthenticated (login backend JSON_stringify username password totpCode w).2
    = isAuthenticated w
  ∧ user (login backend JSON_stringify username password totpCode w).2 = user w.
Proof.
  intros Hreply H401. rewrite login_eq.
  destruct (api_request_cases backend (POST_auth_login username password totpCode)
              (with_loading true w))
    as [(r' & Hr & Hs & _)|[(r' & Hr & _ & ->)|(_ & Hu & _)]];
    revert Hr || revert Hu; change (wire (with_loading true w)) with (wire w);
    rewrite dispatch_with_loading; cbn [fst]; rewrite Hreply.
  - intros [= <-]. exfalso. revert Hs. change (wire (with_loading true w)) with (wire w).
    rewrite dispatch_with_loading. cbn [fst]. rewrite Hreply. unfold succeeded. lia.
  - intros [= <-]. cbn [fst snd]. rewrite login_rejected_other by lia.
    split; [done|]. unfold session_cleared. world_cells.
    destruct (expire_session_cleared
                (with_wire (dispatch (POST_auth_login username password totpCode) w).1
                   (with_loading true w))) as [Ha Hu].
    split; [by split|]. done.
  - unfold unauthorized. lia.
Qed.

Lemma login_answered_401_expires_the_stored_session_witness :
  session_cleared
    (login (answering 401 (JObj {[ "detail" := JStr "Incorrect username or password" ]}))
           (λ _, "{}") "admin" "wrongpass" (JStr "") signed_in_tab).2
  ∧ isAuthenticated
      (login (answering 401 (JObj {[ "detail" := JStr "Incorrect username or password" ]}))
             (λ _, "{}") "admin" "wrongpass" (JStr "") signed_in_tab).2 = true.
Proof.
  destruct (login_answered_401_expires_the_stored_session
              (answering 401 (JObj {[ "detail" := JStr "Incorrect username or password" ]}))
              (λ _, "{}") "admin" "wrongpass" (JStr "") signed_in_tab
              (mkResponse 401 ∅ (JObj {[ "detail" := JStr "Incorrect username or password" ]}))
              eq_refl eq_refl) as (_ & Hc & _ & Ha & _).
  exact (conj Hc Ha).
Defined.

Lemma dispatch_url config w : url (dispatch config w).1 = url config.
Proof.
  unfold dispatch, request_interceptor. cbn [fst].
  destruct (getItem AUTH_TOKEN _) as [token|]; [|done].
  by destruct (truthy (JStr token)).
Qed.

(** [updateUser] in closed form. *)
Lemma updateUser_eq backend JSON_stringify w :
  updateUser backend JSON_stringify w =
  match api_request backend GET_auth_me w with
  | (Return r, w1) =>
      (Return (), setItem USER_DATA (JSON_stringify (data r)) (with_user (data r) w1))
  | (Throw _, w1) => (Return (), console_error "Error updating user data:" w1)
  end.
Proof.
  unfold updateUser, authAPI_getCurrentUser, api_get. unfold_monad.
  fold GET_auth_me.
  by destruct (api_request backend GET_auth_me w) as [[r|e] w1].
Qed.



(** [enable2FA] in closed form: [updateUser] cannot throw. *)
Lemma enable2FA_eq backend JSON_stringify totpCode w :
  enable2FA backend JSON_stringify totpCode w =
  match api_request backend
          (mkConfig POST "/auth/enable-2fa" ∅ (JObj {[ "totp_code" := totpCode ]}) JNull) w with
  | (Return _, w1) =>
      (Return (JObj {[ "success" := JBool true ]}),
       toast_success "Two-factor authentication enabled"
         (updateUser backend JSON_stringify w1).2)
  | (Throw e, w1) => report_failure "Failed to enable 2FA" e w1
  end.
Proof.
  unfold enable2FA, authAPI_enable2FA, api_post. unfold_monad.
  destruct (api_request backend _ w) as [[r|e] w1]; [|done].
  pose proof (updateUser_eq backend JSON_stringify w1) as Hu.
  destruct (updateUser backend JSON_stringify w1) as [[[]|e] w2]; [done|].
  exfalso. by destruct (api_request backend GET_auth_me w1) as [[?|?] ?].
Qed.

Lemma updateUser_wire backend JSON_stringify w :
  wire (updateUser backend JSON_stringify w).2 = wire w ++ [(dispatch GET_auth_me w).1].
Proof.
  rewrite updateUser_eq.
  destruct (api_request_cases backend GET_auth_me w)
    as [(r & _ & _ & ->)|[(r & _ & _ & ->)|(_ & _ & ->)]]; by world_simpl.
Qed.

(** X6.  [enable2FA] reports success as soon as the enabling call succeeded:
    the profile refresh that follows is sent, but its failure changes neither
    the result nor the success notice.  When the enabling call fails, no
    refresh is sent, and the error of the result, the reply's [detail] or
    else 'Failed to enable 2FA', is the text of the error notice. *)
Theorem enable2FA_succeeds_with_the_enabling_call
    (backend : list Config → Config → NetReply) (JSON_stringify : JsVal → string)
    (totpCode : JsVal) (w : World) :
  let config := mkConfig POST "/auth/enable-2fa" ∅ (JObj {[ "totp_code" := totpCode ]}) JNull in
  let reply := backend (wire w) (dispatch config w).1 in
  (succeeded reply = true →
     (enable2FA backend JSON_stringify totpCode w).1 = Return (JObj {[ "success" := JBool true ]})
     ∧ last (trace (enable2FA backend JSON_stringify totpCode w).2)
       = Some (EvToast "success" "Two-factor authentication enabled")
     ∧ ∃ refresh,
         wire (enable2FA backend JSON_stringify totpCode w).2
         = wire w ++ [(dispatch config w).1; refresh]
         ∧ url refresh = "/auth/me")
  ∧ (succeeded reply = false →
     let message := js_or (error_detail (failure_of reply)) (JStr "Failed to enable 2FA") in
     (enable2FA backend JSON_stringify totpCode w).1
     = Return (JObj {[ "success" := JBool false; "error" := message ]})
     ∧ last (trace (enable2FA backend JSON_stringify totpCode w).2)
       = Some (EvToast "error" (to_string message))
     ∧ wire (enable2FA backend JSON_stringify totpCode w).2 = wire w ++ [(dispatch config w).1]).
Proof.
  cbv zeta. rewrite enable2FA_eq.
  set (config := mkConfig POST "/auth/enable-2fa" ∅ (JObj {[ "totp_code" := totpCode ]}) JNull).
  destruct (api_request_cases backend config w)
    as [(r & Hr & Hs & ->)|[(r & Hr & H401 & ->)|(Hs & Hu & ->)]].
  - rewrite Hs. split; [|done]. intros _. split; [done|]. split.
    + unfold toast_success. cbn [snd]. rewrite trace_emit. apply last_snoc.
    + exists (dispatch GET_auth_me (with_wire (dispatch config w).1 w)).1.
      split.
      * unfold toast_success. cbn [snd]. rewrite wire_emit, updateUser_wire.
        rewrite wire_with_wire. by rewrite <- app_assoc.
      * apply dispatch_url.
  - rewrite Hr. split; [unfold succeeded; lia|]. intros _.
    unfold report_failure. unfold_monad. cbn [fst snd failure_of].
    split; [done|]. split.
    + unfold toast_error. rewrite trace_emit. apply last_snoc.
    + unfold toast_error, expire_session, assign_location_href, removeItem.
      by autorewrite with world.
  - rewrite Hs. split; [done|]. intros _.
    unfold report_failure. unfold_monad. cbn [fst snd].
    split; [done|]. split.
    + unfold toast_error. rewrite trace_emit. apply last_snoc.
    + unfold toast_error. by autorewrite with world.
Qed.

Lemma enable2FA_succeeds_with_the_enabling_call_witness :
  (enable2FA (λ _ c, if String.eqb (url c) "/auth/me" then NoReply
                     else Reply (mkResponse 200 ∅ JNull))
             (λ _, "{}") (JStr "123456") signed_in_tab).1
  = Return (JObj {[ "success" := JBool true ]})
  ∧ (enable2FA (answering 400 (JObj {[ "detail" := JStr "Invalid TOTP code" ]}))
               (λ _, "{}") (JStr "000000") signed_in_tab).1
    = Return (JObj {[ "success" := JBool false; "error" := JStr "Invalid TOTP code" ]}).
Proof.
  split.
  - destruct (enable2FA_succeeds_with_the_enabling_call
                (λ _ c, if String.eqb (url c) "/auth/me" then NoReply
                        else Reply (mkResponse 200 ∅ JNull))
                (λ _, "{}") (JStr "123456") signed_in_tab) as (H & _).
    destruct (H eq_refl) as (Hr & _). exact Hr.
  - destruct (enable2FA_succeeds_with_the_enabling_call
                (answering 400 (JObj {[ "detail" := JStr "Invalid TOTP code" ]}))
                (λ _, "{}") (JStr "000000") signed_in_tab) as (_ & H).
    destruct (H eq_refl) as (Hr & _). exact Hr.
Defined.

(** X7.  [changePassword] and [setup2FA] leave the session alone: they write
    nothing to storage and change none of the provider's cells.  Their result
    is a success exactly when the call succeeded ([setup2FA] handing the body
    of the reply on as [data]), and otherwise carries the reply's [detail] or
    the operation's default message. *)
Theorem password_and_2fa_setup_leave_the_session_alone
    (backend : list Config → Config → NetReply)
    (currentPassword newPassword : JsVal) (w : World) :
  let change :=
    mkConfig POST "/auth/change-password" ∅
      (JObj {[ "current_password" := currentPassword; "new_password" := newPassword ]})
      JNull in
  let setup := mkConfig POST "/auth/setup-2fa" ∅ JUndefined JUndefined in
  (∃ delta,
     trace (changePassword backend currentPassword newPassword w).2 = trace w ++ delta
     ∧ Forall (λ e, is_write e = false) delta
     ∧ isAuthenticated (changePassword backend currentPassword newPassword w).2
       = isAuthenticated w
     ∧ user (changePassword backend currentPassword newPassword w).2 = user w
     ∧ loading (changePassword backend currentPassword newPassword w).2 = loading w
     ∧ (changePassword backend currentPassword newPassword w).1
       = Return
           (if succeeded (backend (wire w) (dispatch change w).1)
            then JObj {[ "success" := JBool true ]}
            else JObj {[ "success" := JBool false;
                         "error" :=
                           js_or (error_detail (failure_of (backend (wire w) (dispatch change w).1)))
                                 (JStr "Failed to change password") ]}))
  ∧ (∃ delta,
       trace (setup2FA backend w).2 = trace w ++ delta
       ∧ Forall (λ e, is_write e = false) delta
       ∧ isAuthenticated (setup2FA backend w).2 = isAuthenticated w
       ∧ user (setup2FA backend w).2 = user w
       ∧ loading (setup2FA backend w).2 = loading w
       ∧ (setup2FA backend w).1
         = Return
             (match backend (wire w) (dispatch setup w).1 with
              | Reply r =>
                  if succeeded (Reply r)
                  then JObj {[ "success" := JBool true; "data" := data r ]}
                  else JObj {[ "success" := JBool false;
                               "error" := js_or (opt_member (data r) "detail")
                                                (JStr "Failed to setup 2FA") ]}
              | NoReply =>
                  JObj {[ "success" := JBool false; "error" := JStr "Failed to setup 2FA" ]}
              end)).
Proof.
  cbv zeta. split.
  - unfold changePassword, authAPI_changePassword, report_failure, api_post. unfold_monad.
    destruct (api_request_cases backend
                (mkConfig POST "/auth/change-password" ∅
                   (JObj {[ "current_password" := currentPassword;
                            "new_password" := newPassword ]}) JNull) w)
      as [(r & Hr & Hs & ->)|[(r & Hr & H401 & ->)|(Hs & Hu & ->)]]; cbv beta iota.
    + rewrite Hs. eexists. world_simpl. split; [done|]. split; [|done].
      by repeat constructor.
    + rewrite Hr. assert (succeeded (Reply r) = false) as -> by (unfold succeeded; lia).
      eexists. world_simpl. split; [by rewrite <- !app_assoc|]. split; [|done].
      by repeat constructor.
    + rewrite Hs. eexists. world_simpl. split; [done|]. split; [|done].
      by repeat constructor.
  - unfold setup2FA, authAPI_setup2FA, report_failure, api_post. unfold_monad.
    destruct (api_request_cases backend
                (mkConfig POST "/auth/setup-2fa" ∅ JUndefined JUndefined) w)
      as [(r & Hr & Hs & ->)|[(r & Hr & H401 & ->)|(Hs & Hu & ->)]]; cbv beta iota.
    + rewrite Hr in Hs |- *. rewrite Hs. exists []. world_simpl.
      split; [by rewrite app_nil_r|]. done.
    + rewrite Hr. assert (succeeded (Reply r) = false) as -> by (unfold succeeded; lia).
      eexists. world_simpl. split; [by rewrite <- !app_assoc|]. split; [|done].
      by repeat constructor.
    + destruct (backend (wire w) _) as [r|] eqn:Hr.
      * rewrite Hs. eexists. world_simpl. split; [done|]. split; [|done].
        by repeat constructor.
      * eexists. world_simpl. split; [done|]. split; [|done].
        by repeat constructor.
Qed.

(** ** Application start and page loads *)

Lemma on_app_start_without_token backend w :
  getItem AUTH_TOKEN w = None ∨ getItem AUTH_TOKEN w = Some "" →
  on_app_start backend w = (Return (), with_loading false w).
Proof. unfold on_app_start. by intros [-> | ->]. Qed.

(** X8.  At application start with no token in storage, or an empty one, the
    provider contacts nobody: no request is sent, nothing is removed or
    written, and the only change is the loading flag going down. *)
Theorem app_start_without_token_sends_nothing
    (backend : list Config → Config → NetReply) (w : World) :
  getItem AUTH_TOKEN w = None ∨ getItem AUTH_TOKEN w = Some "" →
  (on_app_start backend w).1 = Return ()
  ∧ wire (on_app_start backend w).2 = wire w
  ∧ trace (on_app_start backend w).2 = trace w
  ∧ localStorage (on_app_start backend w).2 = localStorage w
  ∧ isAuthenticated (on_app_start backend w).2 = isAuthenticated w
  ∧ user (on_app_start backend w).2 = user w
  ∧ loading (on_app_start backend w).2 = false.
Proof. intros H. by rewrite on_app_start_without_token. Qed.

Lemma app_start_without_token_sends_nothing_witness :
  wire (on_app_start (answering 200 JNull) fresh_tab).2 = wire fresh_tab.
Proof.
  destruct (app_start_without_token_sends_nothing (answering 200 JNull) fresh_tab)
    as (_ & H & _).
  - left. reflexivity.
  - exact H.
Defined.

(** X9.  Once the session has gone, by [logout] or by a 401 on any call, the
    next page load starts unauthenticated without asking the backend: no
    request is sent, the authenticated flag is false and the user is null. *)
Theorem page_load_after_session_end_is_unauthenticated
    (backend verifier : list Config → Config → NetReply) (config : Config) (w : World) :
  (unauthorized (backend (wire w) (dispatch config w).1) = true →
     let ended := (api_request backend config w).2 in
     wire (on_app_start verifier (page_load ended)).2 = wire ended
     ∧ isAuthenticated (on_app_start verifier (page_load ended)).2 = false
     ∧ user (on_app_start verifier (page_load ended)).2 = JNull
     ∧ loading (on_app_start verifier (page_load ended)).2 = false)
  ∧ (let ended := (logout w).2 in
     wire (on_app_start verifier (page_load ended)).2 = wire ended
     ∧ isAuthenticated (on_app_start verifier (page_load ended)).2 = false
     ∧ user (on_app_start verifier (page_load ended)).2 = JNull
     ∧ loading (on_app_start verifier (page_load ended)).2 = false).
Proof.
  assert (Hstart : ∀ ended, session_cleared ended →
            on_app_start verifier (page_load ended)
            = (Return (), with_loading false (page_load ended))).
  { intros ended [Ha _]. apply on_app_start_without_token. by left. }
  split.
  - intros Hu. cbv zeta. rewrite Hstart; [done|].
    destruct (api_request_cases backend config w)
      as [(r & _ & Hs & _)|[(r & _ & _ & ->)|(_ & Hu' & _)]].
    + by rewrite (unauthorized_not_succeeded _ Hu) in Hs.
    + apply expire_session_cleared.
    + congruence.
  - cbv zeta. rewrite Hstart; [done|].
    apply (expire_session_cleared (with_user JNull (with_isAuthenticated false w))).
Qed.

Lemma page_load_after_session_end_is_unauthenticated_witness :
  isAuthenticated
    (on_app_start (answering 200 (JObj {[ "username" := JStr "admin" ]}))
       (page_load (api_request (answering 401 JNull)
                     (mkConfig GET "/sessions/active" ∅ JUndefined JUndefined)
                     signed_in_tab).2)).2 = false.
Proof.
  destruct (page_load_after_session_end_is_unauthenticated
              (answering 401 JNull) (answering 200 (JObj {[ "username" := JStr "admin" ]}))
              (mkConfig GET "/sessions/active" ∅ JUndefined JUndefined) signed_in_tab)
    as (H & _).
  destruct (H eq_refl) as (_ & Ha & _). exact Ha.
Defined.

(** X10.  The token a successful [login] stores is the one later requests
    carry: after it, and across page loads, every request the client
    dispatches has the Authorization header "Bearer <access_token>" (for a
    non-empty token). *)
Theorem stored_token_is_sent_with_later_requests
    (backend : list Config → Config → NetReply) (JSON_stringify : JsVal → string)
    (username password : string) (totpCode : JsVal) (w : World) (r : Response)
    (config : Config) :
  backend (wire w) (dispatch (POST_auth_login username password totpCode) w).1 = Reply r →
  succeeded (Reply r) = true →
  nullish (data r) = false →
  to_string (opt_member (data r) "access_token") ≠ "" →
  let signed_in := (login backend JSON_stringify username password totpCode w).2 in
  headers (dispatch config signed_in).1 !! "Authorization"
  = Some ("Bearer " +:+ to_string (opt_member (data r) "access_token"))
  ∧ headers (dispatch config (page_load signed_in)).1 !! "Authorization"
    = Some ("Bearer " +:+ to_string (opt_member (data r) "access_token")).
Proof.
  intros Hreply Hs Hbody Htoken. cbv zeta.
  assert (Hstored : getItem AUTH_TOKEN (login backend JSON_stringify username password totpCode w).2
                    = Some (to_string (opt_member (data r) "access_token"))).
  { unfold getItem. rewrite login_eq.
    destruct (api_request_cases backend (POST_auth_login username password totpCode)
                (with_loading true w))
      as [(r' & Hr & _ & ->)|[(r' & Hr & H401 & _)|(Hs' & _ & _)]];
      revert Hr || revert Hs'; change (wire (with_loading true w)) with (wire w);
      rewrite dispatch_with_loading; cbn [fst]; rewrite Hreply.
    - intros [= <-]. rewrite Hbody. world_simpl. unfold AUTH_TOKEN, USER_DATA.
      rewrite lookup_insert_ne by discriminate. apply lookup_insert_eq.
    - intros [= <-]. revert Hs. unfold succeeded. lia.
    - congruence. }
  assert (Hsent : ∀ w', getItem AUTH_TOKEN w'
                        = Some (to_string (opt_member (data r) "access_token")) →
            headers (dispatch config w').1 !! "Authorization"
            = Some ("Bearer " +:+ to_string (opt_member (data r) "access_token"))).
  { intros w' Hw'. unfold dispatch, request_interceptor. cbn [fst].
    change (getItem AUTH_TOKEN (with_wire _ w')) with (getItem AUTH_TOKEN w').
    unfold getItem in *. cbn [localStorage]. 
    replace (localStorage w' !! AUTH_TOKEN) with
      (Some (to_string (opt_member (data r) "access_token"))).
    cbn [truthy].
    destruct (String.eqb_spec (to_string (opt_member (data r) "access_token")) "")
      as [?|_]; [done|].
    cbn [negb headers set_header]. apply lookup_insert_eq. }
  split; apply Hsent; [exact Hstored|]. exact Hstored.
Qed.

Lemma stored_token_is_sent_with_later_requests_witness :
  headers (dispatch (mkConfig GET "/files/list" ∅ JUndefined JUndefined)
             (login (answering 200 (JObj {[ "access_token" := JStr "eyJhbGciOi" ]}))
                    (λ _, "{}") "admin" "admin123" (JStr "123456") fresh_tab).2).1
    !! "Authorization" = Some "Bearer eyJhbGciOi".
Proof.
  assert (Htoken : to_string (opt_member (JObj {[ "access_token" := JStr "eyJhbGciOi" ]})
                                "access_token") ≠ "").
  { vm_compute. discriminate. }
  destruct (stored_token_is_sent_with_later_requests
              (answering 200 (JObj {[ "access_token" := JStr "eyJhbGciOi" ]}))
              (λ _, "{}") "admin" "admin123" (JStr "123456") fresh_tab
              (mkResponse 200 ∅ (JObj {[ "access_token" := JStr "eyJhbGciOi" ]}))
              (mkConfig GET "/files/list" ∅ JUndefined JUndefined)
              eq_refl eq_refl eq_refl Htoken) as (H & _).
  exact H.
Defined.

(** ** The login form *)

Lemma login_rejected_requiresTOTP error :
  truthy (opt_member (login_rejected error) "requiresTOTP")
  = status_is error 400 && require_totp_header error.
Proof.
  unfold login_rejected.
  destruct (status_is error 400 && require_totp_header error); [reflexivity|].
  destruct (truthy (error_detail error)); reflexivity.
Qed.

Lemma login_rejected_error error :
  truthy (opt_member (login_rejected error) "error") = true.
Proof.
  unfold login_rejected.
  destruct (status_is error 400 && require_totp_header error); [reflexivity|].
  destruct (truthy (error_detail error)) eqn:Hd; [exact Hd|reflexivity].
Qed.

Lemma asks_second_factor_failure reply :
  status_is (failure_of reply) 400 && require_totp_header (failure_of reply)
  = asks_second_factor reply.
Proof.
  destruct reply as [r|]; [|done]. unfold status_is, require_totp_header. simpl.
  by destruct (resp_headers r !! "x-require-totp").
Qed.

Lemma asks_second_factor_not_2xx reply :
  succeeded reply = true → asks_second_factor reply = false.
Proof.
  destruct reply as [r|]; [|done]. simpl. intros Hs.
  destruct (Z.eqb_spec (status r) 400) as [H|_]; [lia|done].
Qed.

(** What [login] returns, by the reply to its request. *)
Lemma login_result_cases backend JSON_stringify username password totpCode w :
  (succeeded (backend (wire w) (dispatch (POST_auth_login username password totpCode) w).1) = true
   ∧ ((login backend JSON_stringify username password totpCode w).1
        = Return (JObj {[ "success" := JBool true ]})
      ∨ (login backend JSON_stringify username password totpCode w).1
        = Return (login_rejected TypeError)))
  ∨ (succeeded (backend (wire w) (dispatch (POST_auth_login username password totpCode) w).1)
     = false
     ∧ (login backend JSON_stringify username password totpCode w).1
       = Return (login_rejected
                   (failure_of
                      (backend (wire w)
                         (dispatch (POST_auth_login username password totpCode) w).1)))).
Proof.
  rewrite login_eq.
  destruct (api_request_cases backend (POST_auth_login username password totpCode)
              (with_loading true w))
    as [(r & _ & Hs & ->)|[(r & Hr & H401 & ->)|(Hs & _ & ->)]];
    revert Hr || revert Hs; change (wire (with_loading true w)) with (wire w);
    rewrite dispatch_with_loading; cbn [fst].
  - intros ->. left. split; [done|]. destruct (nullish (data r)); auto.
  - intros ->. right. split; [unfold succeeded; lia|done].
  - intros ->. right. done.
Qed.

(** X11.  Submitting the login form never throws and shows exactly one
    notice on top of what [login] did: the success notice when [login]
    succeeded, the second-factor prompt when the backend asked for a code,
    and otherwise an error notice whose text is the error of [login]'s
    result (the form's own fallback text is never needed).  The second-factor
    field, once shown, stays shown; it appears exactly when the backend asks
    for a code. *)
Theorem login_form_shows_one_notice
    (backend : list Config → Config → NetReply) (JSON_stringify : JsVal → string)
    (formData : LoginPage.FormData) (requiresTOTP : bool) (w : World) :
  let config :=
    POST_auth_login (LoginPage.username formData) (LoginPage.password formData)
      (JStr (LoginPage.totpCode formData)) in
  let reply := backend (wire w) (dispatch config w).1 in
  let signed :=
    login backend JSON_stringify (LoginPage.username formData) (LoginPage.password formData)
      (JStr (LoginPage.totpCode formData)) w in
  (LoginPage.handleSubmit backend JSON_stringify formData requiresTOTP w).1
  = Return (requiresTOTP || asks_second_factor reply)
  ∧ ∃ kind message,
      (LoginPage.handleSubmit backend JSON_stringify formData requiresTOTP w).2
      = emit (EvToast kind message) signed.2
      ∧ ((kind = "success" ∧ signed.1 = Return (JObj {[ "success" := JBool true ]}))
         ∨ (kind = "info" ∧ asks_second_factor reply = true)
         ∨ (kind = "error" ∧ asks_second_factor reply = false
            ∧ ∃ result,
                signed.1 = Return result
                ∧ opt_member result "success" = JBool false
                ∧ truthy (opt_member result "error") = true
                ∧ message = to_string (opt_member result "error"))).
Proof.
  cbv zeta. unfold LoginPage.handleSubmit.
  destruct (login_result_cases backend JSON_stringify (LoginPage.username formData)
              (LoginPage.password formData) (JStr (LoginPage.totpCode formData)) w)
    as [(Hs & [Hl|Hl])|(Hs & Hl)];
    destruct (login _ _ _ _ _ w) as [c w1]; cbn [fst snd] in *; subst c.
  - rewrite (asks_second_factor_not_2xx _ Hs), orb_false_r. cbn.
    split; [done|]. eexists _, _. split; [done|]. left. done.
  - rewrite (asks_second_factor_not_2xx _ Hs), orb_false_r.
    rewrite login_rejected_success. cbn [truthy].
    change (truthy (opt_member (login_rejected TypeError) "requiresTOTP")) with false.
    cbn iota. split; [done|]. eexists _, _. split; [done|]. right; right.
    split; [done|]. split; [done|]. eexists. split; [done|].
    split; [apply login_rejected_success|]. split; [apply login_rejected_error|].
    unfold js_or. by rewrite login_rejected_error.
  - rewrite login_rejected_success. cbn [truthy].
    rewrite login_rejected_requiresTOTP, asks_second_factor_failure.
    destruct (asks_second_factor _) eqn:Ha.
    + rewrite orb_true_r. split; [done|]. eexists _, _. split; [done|]. right; left. done.
    + rewrite orb_false_r. split; [done|]. eexists _, _. split; [done|]. right; right.
      split; [done|]. split; [done|]. eexists. split; [done|].
      split; [apply login_rejected_success|]. split; [apply login_rejected_error|].
      unfold js_or. by rewrite login_rejected_error.
Qed.

(** ** The mock login, in full *)

(** X12.  [mockAuth.login] succeeds exactly for a known user name with its
    password and, when the user has the second factor enabled, the code
    "123456"; for a user without it the code is not looked at.  The token of a
    success is "mock_jwt_token_" followed by the time of the call. *)
Theorem mock_login_succeeds_exactly_with_valid_factors
    (users : list (gmap string JsVal)) (now : Z)
    (username password : string) (totpCode : JsVal) (w : World) :
  ∃ result,
    (mockAuth_login users now username password totpCode w).1 = Return result
    ∧ (opt_member result "success" = JBool true ∨ opt_member result "success" = JBool false)
    ∧ (opt_member result "success" = JBool true ↔
       ∃ u, find_user users username = Some u
            ∧ strict_eq_str (prop u "password") password = true
            ∧ (truthy (prop u "totpEnabled") = false
               ∨ strict_eq_str totpCode "123456" = true))
    ∧ (opt_member result "success" = JBool true →
       opt_member result "token" = JStr ("mock_jwt_token_" +:+ pretty now)).
Proof.
  unfold mockAuth_login.
  destruct (find_user users username) as [u|].
  2:{ exists invalid_credentials. split; [done|]. split; [by right|]. split; [|done].
      split; [done|]. by intros (u & [=] & _). }
  destruct (strict_eq_str (prop u "password") password) eqn:Hp; cbn [negb].
  2:{ exists invalid_credentials. split; [done|]. split; [by right|]. split; [|done].
      split; [done|]. intros (u' & [= <-] & Hp' & _). congruence. }
  destruct (truthy (prop u "totpEnabled")) eqn:Ht; cbn [andb].
  - destruct (truthy totpCode) eqn:Hc; cbn [negb].
    + destruct (strict_eq_str totpCode "123456") eqn:H6; cbn [negb].
      * eexists. split; [done|]. split; [by left|]. split; [|done].
        split; [|done]. intros _. exists u. auto.
      * exists invalid_totp_code. split; [done|]. split; [by right|]. split; [|done].
        split; [done|]. intros (u' & [= <-] & _ & [?|?]); congruence.
    + exists second_factor_required. split; [done|]. split; [by right|]. split; [|done].
      split; [done|]. intros (u' & [= <-] & _ & [?|H6]); [congruence|].
      destruct totpCode; try discriminate. simpl in *.
      apply String.eqb_eq in H6. subst. discriminate.
  - eexists. split; [done|]. split; [by left|]. split; [|done].
    split; [|done]. intros _. exists u. auto.
Qed.

Lemma mock_login_succeeds_exactly_with_valid_factors_witness :
  ∃ result,
    (mockAuth_login (mockAuth_users "2025-01-01T00:00:00.000Z") 1700000000000
       "admin" "admin123" (JStr "123456") fresh_tab).1 = Return result
    ∧ opt_member result "token" = JStr "mock_jwt_token_1700000000000".
Proof.
  destruct (mock_login_succeeds_exactly_with_valid_factors
              (mockAuth_users "2025-01-01T00:00:00.000Z") 1700000000000
              "admin" "admin123" (JStr "123456") fresh_tab)
    as (result & Hr & _ & Hiff & Htoken).
  exists result. split; [exact Hr|].
  rewrite Htoken; [reflexivity|].
  apply Hiff. eexists. split; [reflexivity|]. split; [reflexivity|]. right. reflexivity.
Defined.

(** * The components *)

(** ** Class names *)

(** X13.  [cn] returns the empty string whatever it is given: the array of
    its arguments reaches [clsx] as a single argument that is not a string,
    and [twMerge] drops the empty string that results. *)
Theorem cn_is_always_empty (inputs : list ClassNames.Arg) : ClassNames.cn inputs = "".
Proof. reflexivity. Qed.

Lemma clsx_cons_falsy cls classes :
  ClassNames.Boolean cls = false →
  ClassNames.clsx (cls :: classes) = ClassNames.clsx classes.
Proof. intros H. unfold ClassNames.clsx. simpl. by rewrite H. Qed.




(** ** The log view *)

Lemma append_logs_snoc news newLog logs :
  Logs.append_logs (news ++ [newLog]) logs
  = Logs.append_log newLog (Logs.append_logs news logs).
Proof. unfold Logs.append_logs. by rewrite foldl_snoc. Qed.

(** X15.  The log view keeps the hundred newest logs, newest first: after
    one tick or more, the list is the generated logs, latest first, followed
    by the old ones, cut at a hundred entries. *)
Theorem log_view_keeps_the_newest_hundred (news logs : list Logs.Log) :
  news ≠ [] →
  Logs.append_logs news logs = take 100 (rev news ++ logs)
  ∧ length (Logs.append_logs news logs) ≤ 100
  ∧ head (Logs.append_logs news logs) = last news.
Proof.
  intros Hne.
  assert (H : Logs.append_logs news logs = take 100 (rev news ++ logs)).
  { induction news as [|newLog news IH] using rev_ind; [done|]. clear Hne.
    rewrite append_logs_snoc, rev_unit. unfold Logs.append_log.
    destruct news as [|n0 news'].
    - done.
    - rewrite IH by done. rewrite take_take. done. }
  rewrite H. split; [done|]. split.
  - rewrite length_take. lia.
  - destruct news as [|n0 news' _] using rev_ind; [done|].
    by rewrite rev_unit, last_snoc.
Qed.

Lemma log_view_keeps_the_newest_hundred_witness :
  length (Logs.append_logs
            [Logs.mkLog 1735689600000 "2025-01-01T00:00:00.000Z" "INFO" "SYSTEM"
               "System health check completed" (JObj {[ "random" := JBool true ]})]
            (replicate 100
               (Logs.mkLog 1 "2024-12-31T23:59:55.000Z" "ERROR" "SYSTEM"
                  "High CPU usage detected: 89%" JNull))) ≤ 100.
Proof.
  apply (log_view_keeps_the_newest_hundred
           [Logs.mkLog 1735689600000 "2025-01-01T00:00:00.000Z" "INFO" "SYSTEM"
              "System health check completed" (JObj {[ "random" := JBool true ]})]
           (replicate 100
              (Logs.mkLog 1 "2024-12-31T23:59:55.000Z" "ERROR" "SYSTEM"
                 "High CPU usage detected: 89%" JNull))).
  discriminate.
Defined.

Lemma filter_sublist {A} (p : A → bool) (l : list A) : sublist (List.filter p l) l.
Proof.
  induction l as [|x l IH]; [constructor|]. simpl.
  destruct (p x); by constructor.
Qed.

Lemma Forall_filter_true {A} (p : A → bool) (l : list A) :
  Forall (λ x, p x = true) (List.filter p l).
Proof.
  induction l as [|x l IH]; [constructor|]. simpl.
  destruct (p x) eqn:Hp; [by constructor|done].
Qed.




(** ** The session monitor *)

Lemma filter_idem {A} (p : A → bool) (l : list A) :
  List.filter p (List.filter p l) = List.filter p l.
Proof.
  induction l as [|x l IH]; [done|]. simpl.
  destruct (p x) eqn:Hp; simpl; [rewrite Hp|]; by rewrite ?IH.
Qed.

Lemma filter_comm {A} (p q : A → bool) (l : list A) :
  List.filter p (List.filter q l) = List.filter q (List.filter p l).
Proof.
  induction l as [|x l IH]; [done|]. simpl.
  destruct (p x) eqn:Hp, (q x) eqn:Hq; simpl; rewrite ?Hp, ?Hq; by rewrite IH.
Qed.

(** X17.  Terminating a session removes every session with that id and no
    other: the sessions that stay are those with another id, in their order.
    Terminating the same session again changes nothing, and two terminations
    can be done in either order. *)
Theorem terminateSession_removes_exactly_one_id
    (sessionId other : string) (sessions : list (gmap string JsVal)) :
  Forall (λ session, strict_eq_str (prop session "id") sessionId = false)
         (Sessions.terminateSession sessionId sessions)
  ∧ sublist (Sessions.terminateSession sessionId sessions) sessions
  ∧ (∀ session, session ∈ sessions →
       strict_eq_str (prop session "id") sessionId = false →
       session ∈ Sessions.terminateSession sessionId sessions)
  ∧ Sessions.terminateSession sessionId (Sessions.terminateSession sessionId sessions)
    = Sessions.terminateSession sessionId sessions
  ∧ Sessions.terminateSession sessionId (Sessions.terminateSession other sessions)
    = Sessions.terminateSession other (Sessions.terminateSession sessionId sessions).
Proof.
  unfold Sessions.terminateSession.
  split; [|split; [apply filter_sublist|split; [|split; [apply filter_idem|apply filter_comm]]]].
  - eapply Forall_impl; [apply Forall_filter_true|].
    intros session H. by apply negb_true_iff in H.
  - intros session Hin Hid. apply list_elem_of_In, List.filter_In.
    split; [by apply list_elem_of_In|]. by rewrite Hid.
Qed.

Lemma terminateSession_removes_exactly_one_id_witness :
  {[ "id" := JStr "web_001" ]}
  ∈ Sessions.terminateSession "rdp_001"
      [ {[ "id" := JStr "rdp_001" ]}; {[ "id" := JStr "web_001" ]} ].
Proof.
  destruct (terminateSession_removes_exactly_one_id "rdp_001" "web_001"
              [ {[ "id" := JStr "rdp_001" ]}; {[ "id" := JStr "web_001" ]} ])
    as (_ & _ & H & _).
  apply H.
  - apply list_elem_of_In. right. left. reflexivity.
  - reflexivity.
Defined.

(** X18.  For a session that started in the past, the duration shown is the
    whole minutes elapsed: as "<m>м" below one hour, and as "<h>ч <m>м" with
    fewer than sixty minutes from then on.  For a start time in the future it
    is a negative number of minutes, never hours. *)
Theorem getSessionDuration_splits_whole_minutes (now start : Z) :
  ((start ≤ now)%Z →
   ∃ h m : Z,
     (0 ≤ h)%Z ∧ (0 ≤ m < 60)%Z ∧ (60 * h + m = (now - start) / 60000)%Z
     ∧ Sessions.getSessionDuration now start
       = if (h =? 0)%Z then pretty m +:+ "м"
         else pretty h +:+ "ч " +:+ pretty m +:+ "м")
  ∧ ((now < start)%Z →
     ((now - start) / 60000 < 0)%Z
     ∧ Sessions.getSessionDuration now start = pretty ((now - start) / 60000)%Z +:+ "м").
Proof.
  unfold Sessions.getSessionDuration. cbv zeta. split.
  - intros Hle.
    set (mins := ((now - start) / 60000)%Z).
    assert (0 ≤ mins)%Z by (apply Z.div_pos; lia).
    exists (mins / 60)%Z, (mins mod 60)%Z.
    split; [apply Z.div_pos; lia|]. split; [apply Z.mod_pos_bound; lia|].
    split; [rewrite (Z.div_mod mins 60) at 3; lia|].
    destruct (Z.ltb_spec 0 (mins / 60)) as [Hh|Hh].
    + destruct (Z.eqb_spec (mins / 60) 0) as [?|_]; [lia|].
      rewrite Z.rem_mod_nonneg by lia. done.
    + assert (mins / 60 = 0)%Z as Hz by (pose proof (Z.div_pos mins 60); lia).
      rewrite Hz. cbn [Z.eqb]. f_equal. f_equal.
      rewrite (Z.div_mod mins 60) at 1 by lia. lia.
  - intros Hlt.
    assert (Hneg : ((now - start) / 60000 < 0)%Z) by (apply Z.div_lt_upper_bound; lia).
    split; [done|].
    destruct (Z.ltb_spec 0 ((now - start) / 60000 / 60)) as [Hh|_]; [|done].
    exfalso. assert ((now - start) / 60000 / 60 < 0)%Z; [|lia].
    apply Z.div_lt_upper_bound; lia.
Qed.

Lemma getSessionDuration_splits_whole_minutes_witness :
  Sessions.getSessionDuration 1735689600000 1735689600001 = "-1м"
  ∧ ∃ h m : Z,
      (60 * h + m = (1735696860000 - 1735689600000) / 60000)%Z
      ∧ Sessions.getSessionDuration 1735696860000 1735689600000
        = if (h =? 0)%Z then pretty m +:+ "м"
          else pretty h +:+ "ч " +:+ pretty m +:+ "м".
Proof.
  split.
  - destruct (getSessionDuration_splits_whole_minutes 1735689600000 1735689600001)
      as (_ & H).
    destruct H as (_ & H); [lia|]. exact H.
  - destruct (getSessionDuration_splits_whole_minutes 1735696860000 1735689600000)
      as (H & _).
    destruct H as (h & m & _ & _ & Hsum & Hs); [lia|].
    exists h, m. exact (conj Hsum Hs).
Defined.

(** ** The file manager *)

Lemma toggle_selected_absent fileName prev :
  existsb (String.eqb fileName) prev = false →
  Files.toggle_selected fileName prev = prev ++ [fileName].
Proof. intros H. unfold Files.toggle_selected. by rewrite H. Qed.

Lemma existsb_eqb_elem (x : string) (l : list string) :
  existsb (String.eqb x) l = true ↔ x ∈ l.
Proof.
  rewrite existsb_exists. split.
  - intros (y & Hy & ->%String.eqb_eq). by apply list_elem_of_In.
  - intros H. exists x. split; [by apply list_elem_of_In|apply String.eqb_refl].
Qed.

Lemma filter_other_elem (x y : string) (l : list string) :
  y ∈ List.filter (λ name, negb (String.eqb name x)) l ↔ y ∈ l ∧ y ≠ x.
Proof.
  by rewrite !list_elem_of_In, List.filter_In, negb_true_iff, String.eqb_neq.
Qed.

Lemma filter_absent (x : string) (l : list string) :
  x ∉ l → List.filter (λ name, negb (String.eqb name x)) l = l.
Proof.
  induction l as [|y l IH]; [done|]. intros Hx. simpl.
  destruct (String.eqb_spec y x) as [->|_]; simpl.
  - exfalso. apply Hx. by left.
  - rewrite IH; [done|]. intros H. apply Hx. by right.
Qed.

Lemma NoDup_filter_bool {A} (p : A → bool) (l : list A) : NoDup l → NoDup (List.filter p l).
Proof. intros H. eapply sublist_NoDup; [exact H|apply filter_sublist]. Qed.

(** X19.  Clicking a file toggles its selection and nothing else: the file
    is selected afterwards exactly if it was not before, every other file
    keeps its state, and a selection without repeats stays without repeats.
    Clicking an unselected file twice gives back the selection as it was. *)
Theorem file_selection_toggles (fileName : string) (selected : list string) :
  (fileName ∈ Files.toggle_selected fileName selected ↔ fileName ∉ selected)
  ∧ (∀ other, other ≠ fileName →
       (other ∈ Files.toggle_selected fileName selected ↔ other ∈ selected))
  ∧ (NoDup selected → NoDup (Files.toggle_selected fileName selected))
  ∧ (fileName ∉ selected →
     Files.toggle_selected fileName (Files.toggle_selected fileName selected) = selected).
Proof.
  unfold Files.toggle_selected at 1 2 3.
  destruct (existsb (String.eqb fileName) selected) eqn:Hin.
  - apply existsb_eqb_elem in Hin.
    split; [|split; [|split; [|done]]].
    + rewrite filter_other_elem. tauto.
    + intros other Hne. rewrite filter_other_elem. tauto.
    + apply NoDup_filter_bool.
  - assert (fileName ∉ selected) as Hout.
    { intros H. apply existsb_eqb_elem in H. congruence. }
    split; [|split; [|split]].
    + rewrite elem_of_app, list_elem_of_singleton. tauto.
    + intros other Hne. rewrite elem_of_app, list_elem_of_singleton. tauto.
    + intros Hnd. apply NoDup_app. split; [done|]. split; [|apply NoDup_singleton].
      intros x Hx Hx'. apply list_elem_of_singleton in Hx'. subst x. by apply Hout.
    + intros _. rewrite (toggle_selected_absent fileName selected) by done.
      unfold Files.toggle_selected.
      assert (existsb (String.eqb fileName) (selected ++ [fileName]) = true) as ->.
      { apply existsb_eqb_elem, elem_of_app. right. by apply list_elem_of_singleton. }
      rewrite List.filter_app, filter_absent by done. simpl.
      rewrite String.eqb_refl. simpl. apply app_nil_r.
Qed.

Lemma file_selection_toggles_witness :
  Files.toggle_selected "photo.jpg" (Files.toggle_selected "photo.jpg" ["documents.pdf"])
  = ["documents.pdf"].
Proof.
  destruct (file_selection_toggles "photo.jpg" ["documents.pdf"]) as (_ & _ & _ & H).
  apply H. intros Hin. apply elem_of_cons in Hin as [Heq|Hin].
  - discriminate.
  - by apply elem_of_nil in Hin.
Defined.

(** X20.  Deleting with nothing selected changes neither the files nor the
    selection and shows an error notice.  Otherwise the files that remain
    are exactly those whose name is not selected, in their order, the
    selection is emptied, and the notice counts the selected names. *)
Theorem handleDelete_removes_the_selected_files (st : Files.State) :
  (Files.selectedFiles st = [] →
     Files.files (Files.handleDelete st) = Files.files st
     ∧ Files.selectedFiles (Files.handleDelete st) = []
     ∧ Files.notices (Files.handleDelete st)
       = Files.notices st ++ [EvToast "error" "Выберите файлы для удаления"])
  ∧ (Files.selectedFiles st ≠ [] →
     Files.selectedFiles (Files.handleDelete st) = []
     ∧ sublist (Files.files (Files.handleDelete st)) (Files.files st)
     ∧ (∀ file, file ∈ Files.files (Files.handleDelete st)
                ↔ file ∈ Files.files st ∧ Files.name file ∉ Files.selectedFiles st)
     ∧ Files.notices (Files.handleDelete st)
       = Files.notices st
         ++ [EvToast "success"
               ("Удалено файлов: " +:+ pretty (length (Files.selectedFiles st)))]).
Proof.
  unfold Files.handleDelete. split.
  - intros ->. done.
  - intros Hne. destruct (Files.selectedFiles st) as [|f sel] eqn:Hsel; [done|].
    cbn [length Nat.eqb Files.files Files.selectedFiles Files.notices].
    split; [done|]. split; [apply filter_sublist|]. split; [|done].
    intros file. rewrite list_elem_of_In, List.filter_In, negb_true_iff.
    rewrite <- list_elem_of_In, <- existsb_eqb_elem.
    destruct (existsb (String.eqb (Files.name file)) (f :: sel)); split;
      intros [? ?]; split; congruence.
Qed.

Lemma handleDelete_removes_the_selected_files_witness :
  Files.files
    (Files.handleDelete
       (Files.handleFileSelect "photo.jpg"
          (Files.mkState
             [Files.mkFileEntry "Users" "folder" JNull "2025-01-01T00:00:00.000Z" "rwx";
              Files.mkFileEntry "photo.jpg" "file" (JNum 5242880)
                "2025-01-01T00:00:00.000Z" "rw-"]
             [] 0 false [] 1 ∅)))
  = [Files.mkFileEntry "Users" "folder" JNull "2025-01-01T00:00:00.000Z" "rwx"]
  ∧ Files.files
      (Files.handleDelete
         (Files.mkState
            [Files.mkFileEntry "Users" "folder" JNull "2025-01-01T00:00:00.000Z" "rwx"]
            [] 0 false [] 1 ∅))
    = [Files.mkFileEntry "Users" "folder" JNull "2025-01-01T00:00:00.000Z" "rwx"].
Proof.
  split; [reflexivity|].
  destruct (handleDelete_removes_the_selected_files
              (Files.mkState
                 [Files.mkFileEntry "Users" "folder" JNull "2025-01-01T00:00:00.000Z" "rwx"]
                 [] 0 false [] 1 ∅)) as (H & _).
  destruct (H eq_refl) as (Hf & _). exact Hf.
Defined.

(** While the progress is short of a hundred, a live interval only adds ten
    to it at each tick. *)
Lemma upload_ticks_progress interval uploadedFiles times st :
  interval ∈ Files.live_intervals st →
  (Files.uploadProgress st + 10 * Z.of_nat (length times) < 110)%Z →
  Files.upload_ticks interval uploadedFiles times st
  = Files.mkState (Files.files st) (Files.selectedFiles st)
      (Files.uploadProgress st + 10 * Z.of_nat (length times)) (Files.isUploading st)
      (Files.notices st) (Files.next_interval st) (Files.live_intervals st).
Proof.
  revert st. induction times as [|now times IH]; intros st Hlive Hp.
  - destruct st. cbn. f_equal. lia.
  - unfold Files.upload_ticks. cbn [foldl].
    fold (Files.upload_ticks interval uploadedFiles times
            (Files.upload_tick interval uploadedFiles now st)).
    assert (Hstep : Files.upload_tick interval uploadedFiles now st
              = Files.mkState (Files.files st) (Files.selectedFiles st)
                  (Files.uploadProgress st + 10) (Files.isUploading st)
                  (Files.notices st) (Files.next_interval st) (Files.live_intervals st)).
    { unfold Files.upload_tick. rewrite bool_decide_eq_true_2 by done.
      destruct (Z.leb_spec 100 (Files.uploadProgress st)) as [H|_]; [|done].
      cbn [length] in Hp. lia. }
    rewrite Hstep, IH; cbn; [|done|cbn [length] in Hp; lia].
    f_equal. cbn [length]. lia.
Qed.

Lemma upload_ticks_cleared interval uploadedFiles times st :
  interval ∉ Files.live_intervals st →
  Files.upload_ticks interval uploadedFiles times st = st.
Proof.
  intros Hdead. induction times as [|now times IH]; [done|].
  unfold Files.upload_ticks. cbn [foldl].
  unfold Files.upload_tick at 2. rewrite bool_decide_eq_false_2 by done. exact IH.
Qed.

(** X21.  An upload runs its course and stops itself: the interval started
    by [handleFileUpload] raises the progress by ten at each of its first ten
    ticks, leaving the files alone; its eleventh tick clears the interval,
    adds one entry per uploaded file after the existing ones, ends the
    uploading state and shows one notice; after that the interval never
    fires again. *)
Theorem upload_completes_at_the_eleventh_tick
    (st : Files.State) (uploadedFiles : list Files.Upload)
    (early : list string) (last : string) (later : list string) :
  length early = 10 →
  let interval := (Files.handleFileUpload st).1 in
  let started := (Files.handleFileUpload st).2 in
  let finished := Files.upload_ticks interval uploadedFiles (early ++ [last]) started in
  (∀ k, k ≤ 10 →
     let running := Files.upload_ticks interval uploadedFiles (take k early) started in
     Files.uploadProgress running = (10 * Z.of_nat k)%Z
     ∧ Files.isUploading running = true
     ∧ Files.files running = Files.files st
     ∧ interval ∈ Files.live_intervals running)
  ∧ Files.files finished
    = Files.files st ++ Files.uploaded_entries uploadedFiles last
  ∧ Files.uploadProgress finished = 100%Z
  ∧ Files.isUploading finished = false
  ∧ (interval ∉ Files.live_intervals finished)
  ∧ Files.notices finished
    = Files.notices st
      ++ [EvToast "success" ("Загружено файлов: " +:+ pretty (length uploadedFiles))]
  ∧ Files.upload_ticks interval uploadedFiles later finished = finished.
Proof.
  intros Hlen. cbv zeta. cbn [fst snd Files.handleFileUpload].
  set (interval := Files.next_interval st).
  set (started := Files.mkState (Files.files st) (Files.selectedFiles st) 0 true
                    (Files.notices st) (S interval) ({[interval]} ∪ Files.live_intervals st)).
  assert (Hlive : interval ∈ Files.live_intervals started).
  { cbn. apply elem_of_union. left. by apply elem_of_singleton. }
  assert (Hfinished :
    Files.upload_ticks interval uploadedFiles (early ++ [last]) started
    = Files.mkState (Files.files st ++ Files.uploaded_entries uploadedFiles last)
        (Files.selectedFiles st) 100 false
        (Files.notices st
         ++ [EvToast "success" ("Загружено файлов: " +:+ pretty (length uploadedFiles))])
        (S interval) (({[interval]} ∪ Files.live_intervals st) ∖ {[interval]})).
  { unfold Files.upload_ticks. rewrite foldl_snoc.
    fold (Files.upload_ticks interval uploadedFiles early started).
    rewrite upload_ticks_progress by (rewrite ?Hlen; cbn; first [done | lia]).
    unfold Files.upload_tick. cbn [Files.live_intervals Files.uploadProgress].
    rewrite bool_decide_eq_true_2 by exact Hlive.
    rewrite Hlen. done. }
  split.
  - intros k Hk.
    rewrite upload_ticks_progress by (rewrite ?length_take; cbn; first [done | lia]).
    cbn. rewrite length_take, Hlen.
    split; [lia|]. split; [done|]. split; [done|]. exact Hlive.
  - assert (Hdead : interval ∉ ({[interval]} ∪ Files.live_intervals st) ∖ {[interval]}).
    { apply not_elem_of_difference. right. by apply elem_of_singleton. }
    rewrite Hfinished. cbn. do 3 (split; [done|]). split; [exact Hdead|]. split; [done|].
    by apply upload_ticks_cleared.
Qed.

Lemma upload_completes_at_the_eleventh_tick_witness :
  Files.files
    (Files.upload_ticks 1 [Files.mkUpload "report.pdf" 2048]
       (replicate 10 "2025-01-01T00:00:00.000Z" ++ ["2025-01-01T00:00:02.200Z"])
       (Files.handleFileUpload (Files.mkState [] [] 0 false [] 1 ∅)).2)
  = [] ++ Files.uploaded_entries [Files.mkUpload "report.pdf" 2048] "2025-01-01T00:00:02.200Z".
Proof.
  destruct (upload_completes_at_the_eleventh_tick
              (Files.mkState [] [] 0 false [] 1 ∅) [Files.mkUpload "report.pdf" 2048]
              (replicate 10 "2025-01-01T00:00:00.000Z") "2025-01-01T00:00:02.200Z" []
              eq_refl) as (_ & H & _).
  exact H.
Defined.

(** ** The settings page *)

Lemma handleSettingChanges_snoc changes key value st :
  SettingsPage.handleSettingChanges (changes ++ [(key, value)]) st
  = SettingsPage.handleSettingChange key value
      (SettingsPage.handleSettingChanges changes st).
Proof. unfold SettingsPage.handleSettingChanges. by rewrite foldl_snoc. Qed.

Lemma handleSettingChanges_other changes key st :
  key ∉ changes.*1 →
  SettingsPage.settings (SettingsPage.handleSettingChanges changes st) !! key
  = SettingsPage.settings st !! key.
Proof.
  induction changes as [|[k v] changes IH] using rev_ind; [done|].
  rewrite fmap_app, elem_of_app. intros Hk.
  rewrite handleSettingChanges_snoc. cbn.
  rewrite lookup_insert_ne.
  - apply IH. tauto.
  - intros ->. apply Hk. right. cbn. by apply list_elem_of_singleton.
Qed.

(** X22.  Resetting the settings restores nothing: after any edits, "reset"
    (like "save") leaves every setting at the value of its last edit and
    the settings never edited as they were, and only takes the mark of
    pending changes away. *)
Theorem resetSettings_keeps_the_edits
    (st : SettingsPage.State) (earlier later : list (string * JsVal))
    (key : string) (value : JsVal) :
  let edited :=
    SettingsPage.handleSettingChanges (earlier ++ (key, value) :: later) st in
  SettingsPage.hasChanges edited = true
  ∧ SettingsPage.hasChanges (SettingsPage.resetSettings edited) = false
  ∧ SettingsPage.settings (SettingsPage.resetSettings edited) = SettingsPage.settings edited
  ∧ SettingsPage.settings (SettingsPage.saveSettings edited) = SettingsPage.settings edited
  ∧ (key ∉ later.*1 →
     SettingsPage.settings (SettingsPage.resetSettings edited) !! key = Some value)
  ∧ (∀ other, other ∉ (earlier ++ (key, value) :: later).*1 →
       SettingsPage.settings (SettingsPage.resetSettings edited) !! other
       = SettingsPage.settings st !! other).
Proof.
  cbv zeta. split.
  - destruct later as [|[k v] later _] using rev_ind.
    + by rewrite handleSettingChanges_snoc.
    + by rewrite app_comm_cons, app_assoc, handleSettingChanges_snoc.
  - do 3 (split; [done|]). split.
    + intros Hk. cbn [SettingsPage.resetSettings SettingsPage.settings].
      unfold SettingsPage.handleSettingChanges. rewrite foldl_app. cbn [foldl].
      fold (SettingsPage.handleSettingChanges earlier st).
      fold (SettingsPage.handleSettingChanges later
              (SettingsPage.handleSettingChange (key, value).1 (key, value).2
                 (SettingsPage.handleSettingChanges earlier st))).
      rewrite handleSettingChanges_other by done. cbn. apply lookup_insert_eq.
    + intros other Ho. cbn [SettingsPage.resetSettings SettingsPage.settings].
      by apply handleSettingChanges_other.
Qed.

Lemma resetSettings_keeps_the_edits_witness :
  SettingsPage.settings
    (SettingsPage.resetSettings
       (SettingsPage.handleSettingChanges ([] ++ ("rdpPort", JNum 3390) :: [])
          (SettingsPage.mkState {[ "rdpPort" := JNum 3389 ]} false []))) !! "rdpPort"
  = Some (JNum 3390).
Proof.
  destruct (resetSettings_keeps_the_edits
              (SettingsPage.mkState {[ "rdpPort" := JNum 3389 ]} false [])
              [] [] "rdpPort" (JNum 3390)) as (_ & _ & _ & _ & H & _).
  apply H. apply not_elem_of_nil.
Defined.

(** ** Loading the dashboard *)

Lemma receive_completion reply w : (receive reply w).1 = settle reply.
Proof.
  unfold receive. destruct (settle reply) as [r|e]; [done|].
  unfold response_rejected. unfold_monad. by destruct (status_is e 401).
Qed.

Lemma receive_load_errors reply w :
  count_events DashboardData.is_load_error (trace (receive reply w).2)
  = count_events DashboardData.is_load_error (trace w).
Proof.
  destruct (receive_cases reply w) as [(r & _ & _ & ->)|[(r & _ & _ & ->)|(_ & _ & ->)]];
    [done| |done].
  cbn [snd]. by rewrite expire_session_trace, count_events_app.
Qed.

Lemma settle_succeeded reply : succeeded reply = true → settle reply = Return
  match reply with Reply r => r | NoReply => mkResponse 0 ∅ JUndefined end.
Proof. destruct reply as [r|]; [|done]. simpl. by intros ->. Qed.

Lemma settle_failed reply : succeeded reply = false → settle reply = Throw (failure_of reply).
Proof. destruct reply as [r|]; [|done]. simpl. by intros ->. Qed.

(** A reply that succeeded brings its body in. *)
Lemma arrive_succeeded now slot reply L :
  succeeded reply = true →
  DashboardData.arrive now slot reply L =
  let L' := DashboardData.record slot (DashboardData.body reply)
              (DashboardData.with_world (receive reply (DashboardData.world L)).2 L) in
  if DashboardData.settled L' then L'
  else
    match DashboardData.statsData L', DashboardData.metricsData L',
          DashboardData.sessionsData L' with
    | Some s, Some m, Some a => DashboardData.on_fulfilled now s m a L'
    | _, _, _ => L'
    end.
Proof.
  intros Hs. unfold DashboardData.arrive.
  pose proof (receive_completion reply (DashboardData.world L)) as Hc.
  rewrite (settle_succeeded _ Hs) in Hc.
  destruct (receive reply (DashboardData.world L)) as [c w']. cbn [fst snd] in *. subst c.
  by destruct reply.
Qed.

Lemma arrive_failed now slot reply L :
  succeeded reply = false →
  DashboardData.arrive now slot reply L =
  if DashboardData.settled L
  then DashboardData.with_world (receive reply (DashboardData.world L)).2 L
  else DashboardData.on_rejected
         (DashboardData.with_world (receive reply (DashboardData.world L)).2 L).
Proof.
  intros Hs. unfold DashboardData.arrive.
  pose proof (receive_completion reply (DashboardData.world L)) as Hc.
  rewrite (settle_failed _ Hs) in Hc.
  destruct (receive reply (DashboardData.world L)) as [c w']. cbn [fst snd] in *. by subst c.
Qed.

Lemma dashboard_orders (order : list DashboardData.Slot) :
  order ≡ₚ [DashboardData.Stats; DashboardData.Metrics; DashboardData.ActiveSessions] →
  order = [DashboardData.Stats; DashboardData.Metrics; DashboardData.ActiveSessions]
  ∨ order = [DashboardData.Stats; DashboardData.ActiveSessions; DashboardData.Metrics]
  ∨ order = [DashboardData.Metrics; DashboardData.Stats; DashboardData.ActiveSessions]
  ∨ order = [DashboardData.Metrics; DashboardData.ActiveSessions; DashboardData.Stats]
  ∨ order = [DashboardData.ActiveSessions; DashboardData.Stats; DashboardData.Metrics]
  ∨ order = [DashboardData.ActiveSessions; DashboardData.Metrics; DashboardData.Stats].
Proof.
  intros Hp.
  assert (Hlen : length order = 3) by (by rewrite Hp).
  assert (Hnd : NoDup order).
  { rewrite Hp. repeat (apply NoDup_cons; split); [..|apply NoDup_nil_2];
      rewrite ?elem_of_cons, ?elem_of_nil; intuition discriminate. }
  destruct order as [|a [|b [|c [|d order]]]]; try discriminate.
  apply NoDup_cons in Hnd as [Ha Hnd]. apply NoDup_cons in Hnd as [Hb _].
  destruct a, b, c; auto 10; exfalso;
    first [ apply Ha; solve [repeat constructor] | apply Hb; solve [repeat constructor] ].
Qed.

Ltac load_step HL :=
  match type of HL with
  | context [DashboardData.arrive ?n ?s ?r (DashboardData.mkLoad ?a ?b ?c ?d ?e ?f)] =>
      first
        [ rewrite (arrive_succeeded n s r (DashboardData.mkLoad a b c d e f)) in HL
            by assumption
        | rewrite (arrive_failed n s r (DashboardData.mkLoad a b c d e f)) in HL
            by assumption ]
  end;
  cbv zeta in HL;
  unfold DashboardData.record, DashboardData.with_world, DashboardData.on_rejected in HL;
  cbn [DashboardData.statsData DashboardData.metricsData
       DashboardData.sessionsData DashboardData.settled DashboardData.cells
       DashboardData.world DashboardData.stats DashboardData.metrics
       DashboardData.sessions DashboardData.lastUpdate DashboardData.loading] in HL.

(** The load over the three replies in flight, whatever their order. *)
Lemma dashboard_load_outcome now order current w1 (r1 r2 r3 : NetReply) :
  order ≡ₚ [DashboardData.Stats; DashboardData.Metrics; DashboardData.ActiveSessions] →
  let L :=
    foldl (fun L slot => DashboardData.arrive now slot
                           (DashboardData.reply_of [r1; r2; r3] slot) L)
          (DashboardData.mkLoad None None None false current w1) order in
  let shown :=
    count_events DashboardData.is_load_error (trace (DashboardData.world L))
    - count_events DashboardData.is_load_error (trace w1) in
  DashboardData.settled L = true
  ∧ DashboardData.loading (DashboardData.cells L) = false
  ∧ (succeeded r1 && succeeded r2 && succeeded r3 = false →
     shown = 1
     ∧ DashboardData.cells L
       = DashboardData.mkCells (DashboardData.stats current) (DashboardData.metrics current)
           (DashboardData.sessions current) (DashboardData.lastUpdate current) false)
  ∧ (succeeded r1 && succeeded r2 && succeeded r3 = true →
     DashboardData.stats (DashboardData.cells L) = DashboardData.body r1
     ∧ DashboardData.metrics (DashboardData.cells L) = DashboardData.body r2
     ∧ (nullish (DashboardData.body r3) = true →
        shown = 1
        ∧ DashboardData.sessions (DashboardData.cells L) = DashboardData.sessions current
        ∧ DashboardData.lastUpdate (DashboardData.cells L)
          = DashboardData.lastUpdate current)
     ∧ (nullish (DashboardData.body r3) = false →
        shown = 0
        ∧ DashboardData.lastUpdate (DashboardData.cells L) = now
        ∧ DashboardData.sessions (DashboardData.cells L)
          = if truthy (opt_member (DashboardData.body r3) "sessions")
            then DashboardData.SessionsOf (opt_member (DashboardData.body r3) "sessions")
            else DashboardData.NoSessions)).
Proof.
  intros Hp. cbv zeta.
  remember (foldl _ _ order) as L eqn:HL.
  destruct (succeeded r1) eqn:H1, (succeeded r2) eqn:H2, (succeeded r3) eqn:H3;
    destruct (dashboard_orders order Hp) as [-> | [-> | [-> | [-> | [-> | ->]]]]];
    cbn [foldl DashboardData.reply_of nth] in HL; cbn [andb];
    repeat load_step HL;
    unfold DashboardData.on_fulfilled in HL;
    try (destruct (nullish (DashboardData.body r3)) eqn:Hn; [|clear Hn]);
    unfold DashboardData.on_rejected in HL;
    cbn [DashboardData.settled DashboardData.cells
         DashboardData.world DashboardData.stats DashboardData.metrics
         DashboardData.sessions DashboardData.lastUpdate DashboardData.loading
         DashboardData.statsData DashboardData.metricsData DashboardData.sessionsData]
      in HL;
    subst L;
    cbn [DashboardData.settled DashboardData.cells
         DashboardData.world DashboardData.stats DashboardData.metrics
         DashboardData.sessions DashboardData.lastUpdate DashboardData.loading];
    unfold toast_error, console_error;
    repeat first [ rewrite receive_load_errors | rewrite trace_emit
                 | rewrite count_events_app ];
    change (count_events DashboardData.is_load_error
              [EvConsoleError "Error loading dashboard data:"]) with 0;
    change (count_events DashboardData.is_load_error
              [EvToast "error" "Failed to load dashboard data"]) with 1;
    repeat (first [split | intros ?]); first [done | discriminate | lia].
Qed.

Lemma dispatch_all_shape backend configs w :
  length (dispatch_all backend configs w).1 = length configs
  ∧ trace (dispatch_all backend configs w).2 = trace w.
Proof.
  revert w. induction configs as [|config rest IH]; intros w; [done|].
  cbn [dispatch_all]. unfold dispatch. cbv zeta.
  destruct (dispatch_all backend rest _) as [replies w2] eqn:Hrest.
  specialize (IH (with_wire
    (request_interceptor
       (mkConfig (method config) (url config) (headers config ∪ api_default_headers)
          (params config) (payload config)) w) w)).
  rewrite Hrest in IH. cbn [fst snd length] in *. destruct IH as [-> ->].
  by rewrite trace_with_wire.
Qed.

(** X23. [Dashboard.loadDashboardData] settles once, whatever the order in
    which the three replies come in: loading ends; if one of the three calls
    failed, the error notice is shown exactly once and no cell changes; if
    all three succeeded, the statistics and metrics cells take the bodies of
    their replies, and then a null sessions body throws, so that the notice
    is shown once and the session list and the time of the last update stay,
    while any other body sets the time and the list (empty when the body has
    no truthy [sessions]) with no notice. *)
Theorem dashboard_load_settles_once backend now order current w :
  order ≡ₚ [DashboardData.Stats; DashboardData.Metrics; DashboardData.ActiveSessions] →
  let L := DashboardData.loadDashboardData backend now order current w in
  let shown :=
    count_events DashboardData.is_load_error (trace (DashboardData.world L))
    - count_events DashboardData.is_load_error (trace w) in
  ∃ r1 r2 r3,
    (dispatch_all backend dashboardAPI_configs w).1 = [r1; r2; r3]
    ∧ DashboardData.settled L = true
    ∧ DashboardData.loading (DashboardData.cells L) = false
    ∧ (succeeded r1 && succeeded r2 && succeeded r3 = false →
       shown = 1
       ∧ DashboardData.cells L
         = DashboardData.mkCells (DashboardData.stats current)
             (DashboardData.metrics current) (DashboardData.sessions current)
             (DashboardData.lastUpdate current) false)
    ∧ (succeeded r1 && succeeded r2 && succeeded r3 = true →
       DashboardData.stats (DashboardData.cells L) = DashboardData.body r1
       ∧ DashboardData.metrics (DashboardData.cells L) = DashboardData.body r2
       ∧ (nullish (DashboardData.body r3) = true →
          shown = 1
          ∧ DashboardData.sessions (DashboardData.cells L)
            = DashboardData.sessions current
          ∧ DashboardData.lastUpdate (DashboardData.cells L)
            = DashboardData.lastUpdate current)
       ∧ (nullish (DashboardData.body r3) = false →
          shown = 0
          ∧ DashboardData.lastUpdate (DashboardData.cells L) = now
          ∧ DashboardData.sessions (DashboardData.cells L)
            = if truthy (opt_member (DashboardData.body r3) "sessions")
              then DashboardData.SessionsOf
                     (opt_member (DashboardData.body r3) "sessions")
              else DashboardData.NoSessions)).
Proof.
  intros Hp. cbv zeta. unfold DashboardData.loadDashboardData.
  destruct (dispatch_all_shape backend dashboardAPI_configs w) as [Hlen Htr].
  destruct (dispatch_all backend dashboardAPI_configs w) as [replies w1].
  cbn [fst snd] in *.
  destruct replies as [|r1 [|r2 [|r3 [|r4 replies]]]]; try discriminate.
  exists r1, r2, r3. split; [done|]. rewrite <- Htr.
  exact (dashboard_load_outcome now order current w1 r1 r2 r3 Hp).
Qed.

Lemma dashboard_load_settles_once_witness :
  DashboardData.settled
    (DashboardData.loadDashboardData (answering 401 JNull) "12:00:00"
       [DashboardData.Metrics; DashboardData.ActiveSessions; DashboardData.Stats]
       (DashboardData.mkCells JNull JNull DashboardData.NoSessions "" true)
       signed_in_tab) = true.
Proof.
  assert (Hp : [DashboardData.Metrics; DashboardData.ActiveSessions; DashboardData.Stats]
               ≡ₚ [DashboardData.Stats; DashboardData.Metrics;
                   DashboardData.ActiveSessions]).
  { exact (Permutation_app_comm
             [DashboardData.Metrics; DashboardData.ActiveSessions] [DashboardData.Stats]). }
  destruct (dashboard_load_settles_once (answering 401 JNull) "12:00:00" _
              (DashboardData.mkCells JNull JNull DashboardData.NoSessions "" true)
              signed_in_tab Hp) as (r1 & r2 & r3 & _ & H & _).
  exact H.
Defined.
